(** * CodeCompass: the plan generation and response normalisation pipeline

    A shallow embedding of [PlanService] and [AIService]
    (src/services/planService.ts and src/services/aiService.ts, both carried in
    src/src/services/configService.ts) and the properties of the pipeline
    stated about them.

    Layout: the fragment of ECMAScript the two services rely on ([JValue],
    coercions, property access), the host the services talk to ([Host]),
    the two services, and then the theorems. Around the pipeline, the
    [ConfigService] of the same file, the [PlanViewProvider]
    (src/ui/PlanViewProvider.ts) that calls it and the state handlers of the
    webview script (webview.js) are embedded too, with their own properties
    after those of the pipeline.

    [console.log] / [console.error] calls only write to the log and are
    left out of the embedding. *)

From Stdlib Require Import String Ascii List Bool Arith ZArith Lia DecimalString.
From Stdlib Require Import Sorted DecimalNat.
Import ListNotations.
Open Scope string_scope.
Set Warnings "-register-all".

(** ** Thrown values and results of calls *)

(** [AIError] of src/types: [message], optional [code], [type] and the
    [original] error. *)
Inductive ErrorKind := authentication | rate_limit | bad_request | network | unknown.

Record AIError (T : Type) := mkAIError {
  message : string;
  code : option string;
  type : ErrorKind;
  original : option T
}.
Arguments mkAIError {T}.
Arguments message {T}.
Arguments code {T}.
Arguments type {T}.
Arguments original {T}.

(** What a [throw] (or a rejected promise) can carry, told apart the way
    the code tells values apart: [instanceof OpenAI.APIError] (with its
    [status], [message] and [code]), [instanceof TypeError], any other
    [Error] instance, the plain [AIError] object the client builds, and any
    other value that is not an [Error], kept as the text [String(v)] gives. *)
Inductive thrown :=
| APIError (status : option nat) (msg : string) (errcode : option string)
| TypeError (msg : string)
| OtherError (msg : string)
| AIErrorObject (e : AIError thrown)
| NonError (text : string).

(** A call returns, throws, or never comes back. *)
Inductive outcome (A : Type) :=
| Returns (a : A)
| Throws (e : thrown)
| Diverges.
Arguments Returns {A}.
Arguments Throws {A}.
Arguments Diverges {A}.

Definition obind {A B} (o : outcome A) (k : A -> outcome B) : outcome B :=
  match o with
  | Returns a => k a
  | Throws e => Throws e
  | Diverges => Diverges
  end.

(** ** Text helpers *)

(** Decimal text of a natural number, as [String(i)] or a template literal
    gives for a non-negative integer index. *)
Definition decimal (n : nat) : string := NilZero.string_of_uint (Nat.to_uint n).

(** [xs.join(sep)] on an array of strings. *)
Definition join (sep : string) (xs : list string) : string := String.concat sep xs.

(** [s.includes(needle)]. *)
Fixpoint includes (needle s : string) : bool :=
  prefix needle s ||
  match s with
  | EmptyString => false
  | String _ s' => includes needle s'
  end.

(** The one-character strings [s[0]], [s[1]], ... of a string. *)
Fixpoint chars (s : string) : list string :=
  match s with
  | EmptyString => []
  | String c s' => String c EmptyString :: chars s'
  end.

(** ** JSON values as JavaScript values *)

(** The primitive facts about IEEE numbers the code depends on. A JSON
    number is kept abstract; the class says how it behaves under
    [ToBoolean], [String(n)], and as the bound of the loop
    [for (let i = 0; i < n; i++)]: [Some k] when the body runs [k] times,
    [None] when the test never fails. [str_loop_bound] is the same for a
    bound that is a string (converted by [StringToNumber]). *)
Class JsNumber (num : Type) := {
  num_truthy : num -> bool;
  num_to_string : num -> string;
  num_loop_bound : num -> option nat;
  str_loop_bound : string -> option nat
}.

Section Values.
Context {num : Type} {JN : JsNumber num}.

(** The result of [JSON.parse]. An object is the list of its own
    properties in enumeration order ([Object.keys] order); a key occurs at
    most once and lookups take the first occurrence. *)
Inductive JValue :=
| JNull
| JBool (b : bool)
| JNum (n : num)
| JStr (s : string)
| JArr (elems : list JValue)
| JObj (props : list (string * JValue)).

(** A value or [undefined]. *)
Definition JsAny := option JValue.

Fixpoint assoc (k : string) (props : list (string * JValue)) : option JValue :=
  match props with
  | [] => None
  | (k', v) :: rest => if String.eqb k k' then Some v else assoc k rest
  end.

(** [ToBoolean]. *)
Definition truthy (v : JValue) : bool :=
  match v with
  | JNull => false
  | JBool b => b
  | JNum n => num_truthy n
  | JStr s => negb (String.eqb s "")
  | JArr _ => true
  | JObj _ => true
  end.

Definition truthy_any (v : JsAny) : bool :=
  match v with
  | None => false
  | Some v => truthy v
  end.

(** [typeof v === 'object'] ([null] included, as in JavaScript). *)
Definition typeof_object (v : JValue) : bool :=
  match v with
  | JNull | JArr _ | JObj _ => true
  | _ => false
  end.

(** [Array.isArray(v)]. *)
Definition isArray (v : JValue) : bool :=
  match v with
  | JArr _ => true
  | _ => false
  end.

Definition isArray_any (v : JsAny) : bool :=
  match v with
  | Some v => isArray v
  | None => false
  end.

(** An array value read as the list of its elements ([v as string[]]). *)
Definition elements_of (v : JsAny) : list JValue :=
  match v with
  | Some (JArr elems) => elems
  | _ => []
  end.

(** The index named by a property key among the first [n] indices: the
    [i < n] whose canonical decimal text is [k]. *)
Definition index_of_key (k : string) (n : nat) : option nat :=
  find (fun i => String.eqb (decimal i) k) (seq 0 n).

(** The own enumerable property [k] of a value, as object spread and
    [Object.keys] see it: the entries of an object, the indexed elements of
    an array, the indexed characters of a string, nothing for the other
    primitives. *)
Definition own_enumerable (v : JValue) (k : string) : JsAny :=
  match v with
  | JObj props => assoc k props
  | JArr elems =>
      match index_of_key k (length elems) with
      | Some i => nth_error elems i
      | None => None
      end
  | JStr s =>
      match index_of_key k (String.length s) with
      | Some i => option_map JStr (nth_error (chars s) i)
      | None => None
      end
  | _ => None
  end.

(** [Object.keys(v)] for a value other than [null]. *)
Definition Object_keys (v : JValue) : list string :=
  match v with
  | JObj props => map fst props
  | JArr elems => map decimal (seq 0 (length elems))
  | JStr s => map decimal (seq 0 (String.length s))
  | _ => []
  end.

(** [k in v] for an object or array [v] and a key [k] that is neither an
    index, [length], nor a name found on [Object.prototype] or
    [Array.prototype] (the code asks for [steps], [description], [files]). *)
Definition has_property (k : string) (v : JValue) : bool :=
  match v with
  | JObj props => match assoc k props with Some _ => true | None => false end
  | _ => false
  end.

(** [v.k] for such a key on an object or array. *)
Definition get_property (v : JValue) (k : string) : JsAny :=
  match v with
  | JObj props => assoc k props
  | _ => None
  end.

Definition cannot_convert : thrown :=
  TypeError "Cannot convert object to primitive value".

(** [String(v)]. An array joins its elements with a comma, [null]
    elements giving the empty text. An object takes [toString] from
    [Object.prototype] unless it has an own [toString] property, which in a
    parsed JSON value is never callable: then neither [toString] nor
    [valueOf] yields a primitive and the conversion throws. *)
Fixpoint ToString (v : JValue) : outcome string :=
  match v with
  | JNull => Returns "null"
  | JBool true => Returns "true"
  | JBool false => Returns "false"
  | JNum n => Returns (num_to_string n)
  | JStr s => Returns s
  | JArr elems =>
      (fix join_elems (l : list JValue) : outcome string :=
         match l with
         | [] => Returns ""
         | [x] => match x with JNull => Returns "" | _ => ToString x end
         | x :: rest =>
             obind (match x with JNull => Returns "" | _ => ToString x end)
               (fun sx => obind (join_elems rest)
                  (fun sr => Returns (sx ++ "," ++ sr)))
         end) elems
  | JObj props =>
      match assoc "toString" props with
      | Some _ => Throws cannot_convert
      | None => Returns "[object Object]"
      end
  end.

(** How many times the body of [for (let i = 0; i < v; i++)] runs when
    the bound is the value [v] ([undefined] when [None]): the relational
    comparison converts [v] by [ToNumber]; [undefined] and plain objects
    give [NaN], so the test fails at once. *)
Definition loop_bound (v : JsAny) : outcome (option nat) :=
  match v with
  | None => Returns (Some 0)
  | Some JNull => Returns (Some 0)
  | Some (JBool b) => Returns (Some (if b then 1 else 0))
  | Some (JNum n) => Returns (num_loop_bound n)
  | Some (JStr s) => Returns (str_loop_bound s)
  | Some (JArr elems) => obind (ToString (JArr elems)) (fun s => Returns (str_loop_bound s))
  | Some (JObj props) => obind (ToString (JObj props)) (fun _ => Returns (Some 0))
  end.

End Values.
Arguments JValue num : clear implicits.
Arguments JsAny num : clear implicits.

(** ** Computations with a state that can throw *)

(** The services are asynchronous methods awaited one after the other, so
    a call is a function of the state it starts in, giving its outcome and
    the state it leaves. A [throw] keeps the state: JavaScript does not
    undo the writes made before it. *)
Definition M (S A : Type) : Type := S -> outcome A * S.

Definition ret {S A} (a : A) : M S A := fun s => (Returns a, s).

Definition bind {S A B} (m : M S A) (k : A -> M S B) : M S B :=
  fun s =>
    match m s with
    | (Returns a, s') => k a s'
    | (Throws e, s') => (Throws e, s')
    | (Diverges, s') => (Diverges, s')
    end.

(** An awaited call that does not touch the state. *)
Definition lift {S A} (o : outcome A) : M S A := fun s => (o, s).

Definition throw {S A} (e : thrown) : M S A := lift (Throws e).

(** [try { body } catch (e) { handler e }]. *)
Definition try_catch {S A} (body : M S A) (handler : thrown -> M S A) : M S A :=
  fun s =>
    match body s with
    | (Throws e, s') => handler e s'
    | r => r
    end.

Definition get {S} : M S S := fun s => (Returns s, s).

Definition modify {S} (f : S -> S) : M S unit := fun s => (Returns tt, f s).

Definition when {S} (b : bool) (m : M S unit) : M S unit :=
  if b then m else ret tt.

Declare Scope js_scope.
Delimit Scope js_scope with js.
Notation "x <- m ;; k" := (bind m (fun x => k))
  (at level 61, m at next level, right associativity) : js_scope.
Notation "m ;;; k" := (bind m (fun _ => k))
  (at level 61, right associativity) : js_scope.
Open Scope js_scope.

(** ** The host: editor, file system, clock and completion endpoint *)

Record TextDocument := {
  fsPath : string;
  getText : string;
  languageId : string
}.

(** [vscode.FileType]: a number; [FileType.Directory] is 2. *)
Definition FileType := nat.
Definition FileType_Directory : FileType := 2.

(** [AIServiceConfig] of src/types. [maxTokens] is a [number]: nothing
    in the type keeps it positive. *)
Record AIServiceConfig := {
  apiKey : string;
  endpoint : string;
  model : string;
  maxTokens : Z
}.

(** The reply of [chat.completions.create], as far as the client reads
    it: [choices[0]?.message?.content]. *)
Record ChatMessage := { content : option string }.
Record Choice := { choice_message : option ChatMessage }.
Record ChatCompletion := { choices : list Choice }.

Record Host (num : Type) := {
  (** [vscode.workspace.rootPath] *)
  rootPath : option string;
  (** [vscode.window.activeTextEditor?.document] *)
  activeTextEditor : option TextDocument;
  (** [vscode.workspace.fs.readDirectory(vscode.Uri.file(p))] *)
  readDirectory : string -> outcome (list (string * FileType));
  (** [readFile(p, 'utf-8')] *)
  readFile : string -> outcome string;
  (** [path.join] *)
  path_join : string -> string -> string;
  (** [JSON.parse]: the parsed value, or [None] for a [SyntaxError] *)
  JSON_parse : string -> option (JValue num);
  (** [client.chat.completions.create] for a configuration, system
      message and user message *)
  chat_completions_create :
    AIServiceConfig -> string -> string -> outcome ChatCompletion;
  (** what the [n]-th reading of clock and random source gives to
      [generateId] and to [new Date()] *)
  fresh_id : nat -> string;
  date_at : nat -> Z
}.
Arguments rootPath {num}.
Arguments activeTextEditor {num}.
Arguments readDirectory {num}.
Arguments readFile {num}.
Arguments path_join {num}.
Arguments JSON_parse {num}.
Arguments chat_completions_create {num}.
Arguments fresh_id {num}.
Arguments date_at {num}.

Definition JSON_parse_call {num} (h : Host num) (text : string) : outcome (JValue num) :=
  match JSON_parse h text with
  | Some v => Returns v
  | None => Throws (OtherError "SyntaxError")
  end.

(** ** AIService (src/services/aiService.ts) *)

Module AIService.

Definition quote : string := String (ascii_of_nat 34) EmptyString.
Definition quoted (s : string) : string := quote ++ s ++ quote.

(** The system prompt for the planning assistant role. *)
Definition SYSTEM_PROMPT : string :=
  "You are an expert developer assistant specialized in software architecture and implementation planning.

When given a task, you should:
1. Break it down into clear, actionable steps
2. Identify files that need to be created or modified
3. Consider dependencies and prerequisites
4. Provide a logical ordering of steps

Respond with a structured plan in the following JSON format:
{
  " ++ quoted "title" ++ ": " ++ quoted "Brief title of the plan" ++ ",
  " ++ quoted "summary" ++ ": " ++ quoted "2-3 sentence summary of what will be done" ++ ",
  " ++ quoted "steps" ++ ": [
    {
      " ++ quoted "description" ++ ": " ++ quoted "What this step does" ++ ",
      " ++ quoted "files" ++ ": [" ++ quoted "file/path/1.ts" ++ ", " ++ quoted "file/path/2.ts" ++ "],
      " ++ quoted "notes" ++ ": " ++ quoted "Any important considerations" ++ "
    }
  ]
}".

(** [error instanceof Error ? error.message : String(error)]. The plain
    [AIError] object has no [toString] of its own, so [String] gives the
    text of [Object.prototype.toString]. *)
Definition error_text (error : thrown) : string :=
  match error with
  | APIError _ m _ => m
  | TypeError m => m
  | OtherError m => m
  | AIErrorObject _ => "[object Object]"
  | NonError text => text
  end.

(** [`${error.status}`] for [status: number | undefined]. *)
Definition status_text (status : option nat) : string :=
  match status with
  | Some n => decimal n
  | None => "undefined"
  end.

Definition status_is (status : option nat) (n : nat) : bool :=
  match status with
  | Some m => Nat.eqb m n
  | None => false
  end.

(** Handle and standardize errors from the AI service. *)
Definition handleError (error : thrown) : AIError thrown :=
  match error with
  | APIError status m c =>
      if status_is status 401 then
        {| message := "Invalid API key. Please check your CodeCompass API key in settings.";
           code := Some "AUTH_ERROR";
           type := authentication;
           original := Some error |}
      else if status_is status 429 then
        {| message := "Rate limit exceeded. Please wait a moment and try again.";
           code := Some "RATE_LIMIT";
           type := rate_limit;
           original := Some error |}
      else if status_is status 400 then
        {| message := "Invalid request. Please check your configuration.";
           code := Some "BAD_REQUEST";
           type := bad_request;
           original := Some error |}
      else
        {| message := "API error (" ++ status_text status ++ "): " ++ m;
           code := c;
           type := unknown;
           original := Some error |}
  | _ =>
      if match error with TypeError m => includes "fetch" m | _ => false end then
        {| message := "Network error: Unable to reach the AI service. Check your connection and endpoint.";
           code := Some "NETWORK_ERROR";
           type := network;
           original := Some error |}
      else
        {| message := "Unexpected error: " ++ error_text error;
           code := None;
           type := unknown;
           original := Some error |}
  end.

(** Create an AI error object. *)
Definition createError (m : string) : AIError thrown :=
  {| message := m; code := None; type := unknown; original := None |}.

Section Client.
Context {num : Type} {JN : JsNumber num}.
Variable host : Host num.
Variable config : AIServiceConfig.

(** [response.choices[0]?.message?.content]: [undefined] and [null] are
    both [None]. *)
Definition first_content (response : ChatCompletion) : option string :=
  match choices response with
  | [] => None
  | c :: _ =>
      match choice_message c with
      | Some m => content m
      | None => None
      end
  end.

(** [!content] for [content: string | null | undefined]. *)
Definition no_content (c : option string) : bool :=
  match c with
  | None => true
  | Some s => String.eqb s ""
  end.

(** Generate a plan for the given task: the parsed reply, or
    [{ raw: content }] when the reply is not JSON. Whatever is thrown
    inside, the client's own no-content error included, reaches the caller
    through [handleError]. *)
Definition generatePlan {S : Type} (prompt : string) : M S (JValue num) :=
  try_catch
    (response <- lift (chat_completions_create host config SYSTEM_PROMPT prompt) ;;
     let content := first_content response in
     if no_content content then
       throw (AIErrorObject (createError "No response content received from AI service"))
     else
       let text := match content with Some s => s | None => "" end in
       try_catch
         (parsed <- lift (JSON_parse_call host text) ;;
          ret parsed)
         (fun parseError => ret (JObj [("raw", JStr text)])))
    (fun error => throw (AIErrorObject (handleError error))).

End Client.

End AIService.

(** ** PlanService (src/services/planService.ts) *)

(** [Plan], [PlanStep] and [Context] of src/types. *)
Inductive PlanStatus := draft | active | completed | failed.

Record PlanStep (num : Type) := {
  step_id : string;
  description : string;
  files : list (JValue num);
  order : nat
}.
Arguments step_id {num}.
Arguments description {num}.
Arguments files {num}.
Arguments order {num}.

Record Plan (num : Type) := {
  id : string;
  task : string;
  steps : list (PlanStep num);
  createdAt : Z;
  status : PlanStatus
}.
Arguments id {num}.
Arguments task {num}.
Arguments steps {num}.
Arguments createdAt {num}.
Arguments status {num}.

Record ActiveFile := {
  path : string;
  file_content : string;
  language : string
}.

(** The [dependencies] field of a [Context]: the two maps of the manifest,
    each holding whatever value the manifest had there. *)
Module Manifest.
Record t (num : Type) := {
  dependencies : JsAny num;
  devDependencies : JsAny num
}.
Arguments dependencies {num}.
Arguments devDependencies {num}.
End Manifest.

Record Context (num : Type) := {
  workspaceRoot : option string;
  activeFile : option ActiveFile;
  workspaceStructure : option (list string);
  techStack : option string;
  dependencies : option (Manifest.t num)
}.
Arguments workspaceRoot {num}.
Arguments activeFile {num}.
Arguments workspaceStructure {num}.
Arguments techStack {num}.
Arguments dependencies {num}.

(** The [options] argument of [gatherContext] and [generatePlan]. *)
Record PlanOptions := {
  includeActiveFile : option bool;
  includeWorkspaceStructure : option bool;
  includeDependencies : option bool
}.

(** [options?.flag] as a condition. *)
Definition flag (options : option PlanOptions) (f : PlanOptions -> option bool) : bool :=
  match options with
  | Some o => match f o with Some b => b | None => false end
  | None => false
  end.

(** A [string | undefined] as a condition. *)
Definition nonempty (s : option string) : bool :=
  match s with
  | Some t => negb (String.eqb t "")
  | None => false
  end.

Module PlanService.

Section Service.
Context {num : Type} {JN : JsNumber num}.
Variable host : Host num.
(** The configuration held by the [AIService] the plan service was built with. *)
Variable config : AIServiceConfig.

Local Abbreviation JValue := (JValue num).
Local Abbreviation JsAny := (JsAny num).
Local Abbreviation Context := (Context num).
Local Abbreviation Plan := (Plan num).
Local Abbreviation PlanStep := (PlanStep num).

(** *** Reading the workspace *)

(** [v.k] on any parsed value, for a key not found on a prototype:
    reading a property of [null] throws. *)
Definition get_member (v : JValue) (k : string) : outcome JsAny :=
  match v with
  | JNull => Throws (TypeError ("Cannot read properties of null (reading '" ++ k ++ "')"))
  | _ => Returns (get_property v k)
  end.

(** [v || {}]. *)
Definition or_empty (v : JsAny) : JsAny :=
  if truthy_any v then v else Some (JObj []).

(** [{ ...a, ...b }.k]: the later spread wins; [undefined], [null] and
    the other primitives spread to nothing. *)
Definition spread_get (a b : JsAny) (k : string) : JsAny :=
  let own (x : JsAny) := match x with Some v => own_enumerable v k | None => None end in
  match own b with
  | Some v => Some v
  | None => own a
  end.

(** Detect tech stack from package.json. *)
Definition detectTechStack (pkgJson : JValue) : outcome string :=
  obind (get_member pkgJson "dependencies") (fun deps =>
  obind (get_member pkgJson "devDependencies") (fun devDeps =>
  let allDeps := spread_get deps devDeps in
  let has k := truthy_any (allDeps k) in
  Returns
    (if has "react" then "React"
     else if has "vue" then "Vue.js"
     else if has "angular" || has "@angular/core" then "Angular"
     else if has "svelte" then "Svelte"
     else if has "next" then "Next.js"
     else if has "node" then "Node.js"
     else if has "express" then "Express.js"
     else if has "nest" then "NestJS"
     else if has "typescript" then "TypeScript"
     else if has "storybook" then "Storybook"
     else "JavaScript/TypeScript"))).

(** Get simplified workspace structure (top-level directories). *)
Definition getWorkspaceStructure {S : Type} : M S (list string) :=
  let workspaceRoot := rootPath host in
  match workspaceRoot with
  | Some root =>
      if String.eqb root "" then ret []
      else
        try_catch
          (folders <- lift (readDirectory host root) ;;
           ret (map fst (filter (fun entry => Nat.eqb (snd entry) FileType_Directory) folders)))
          (fun _ => ret [])
  | None => ret []
  end.

Definition set_activeFile (a : ActiveFile) (c : Context) : Context :=
  {| workspaceRoot := workspaceRoot c; activeFile := Some a;
     workspaceStructure := workspaceStructure c; techStack := techStack c;
     dependencies := dependencies c |}.

Definition set_workspaceStructure (w : list string) (c : Context) : Context :=
  {| workspaceRoot := workspaceRoot c; activeFile := activeFile c;
     workspaceStructure := Some w; techStack := techStack c;
     dependencies := dependencies c |}.

Definition set_dependencies (d : Manifest.t num) (c : Context) : Context :=
  {| workspaceRoot := workspaceRoot c; activeFile := activeFile c;
     workspaceStructure := workspaceStructure c; techStack := techStack c;
     dependencies := Some d |}.

Definition set_techStack (t : string) (c : Context) : Context :=
  {| workspaceRoot := workspaceRoot c; activeFile := activeFile c;
     workspaceStructure := workspaceStructure c; techStack := Some t;
     dependencies := dependencies c |}.

(** The inner [try] of [gatherContext]: read and parse the manifest at
    [pkgJsonPath], copy its two maps and detect the tech stack; any error
    is ignored. The [context] object is the state, filled in field by
    field; what was written before a [throw] stays written. *)
Definition gatherDependencies (pkgJsonPath : string) : M Context unit :=
  try_catch
    (pkgContent <- lift (readFile host pkgJsonPath) ;;
     pkgJson <- lift (JSON_parse_call host pkgContent) ;;
     deps <- lift (get_member pkgJson "dependencies") ;;
     devDeps <- lift (get_member pkgJson "devDependencies") ;;
     modify (set_dependencies
       {| Manifest.dependencies := or_empty deps;
          Manifest.devDependencies := or_empty devDeps |}) ;;;
     stack <- lift (detectTechStack pkgJson) ;;
     modify (set_techStack stack))
    (fun _ => ret tt).

(** The body of [gatherContext], inside its outer [try]. *)
Definition gatherContext_body (options : option PlanOptions) : M Context unit :=
  try_catch
    (when (flag options includeActiveFile)
       (match activeTextEditor host with
        | Some document =>
            modify (set_activeFile
              {| path := fsPath document;
                 file_content := getText document;
                 language := languageId document |})
        | None => ret tt
        end) ;;;
     when (flag options includeWorkspaceStructure)
       (structure <- getWorkspaceStructure ;;
        modify (set_workspaceStructure structure)) ;;;
     when (flag options includeDependencies)
       (context <- get ;;
        let pkgJsonPath :=
          match workspaceRoot context with
          | Some root => if String.eqb root "" then None
                         else Some (path_join host root "package.json")
          | None => None
          end in
        when (nonempty pkgJsonPath)
          (gatherDependencies
             match pkgJsonPath with Some p => p | None => "" end)))
    (fun error => ret tt).

(** Gather context from the workspace. [task] is not read. *)
Definition gatherContext {S : Type} (task : string) (options : option PlanOptions)
  : M S Context :=
  fun s =>
    let context :=
      {| workspaceRoot := rootPath host; activeFile := None;
         workspaceStructure := None; techStack := None; dependencies := None |} in
    match gatherContext_body options context with
    | (Returns _, context') => (Returns context', s)
    | (Throws e, _) => (Throws e, s)
    | (Diverges, _) => (Diverges, s)
    end.

(** *** The prompt *)

(** Generate a prompt from context and task. *)
Definition buildPrompt (task : string) (context : Context) : string :=
  let prompt := "Task: " ++ task ++ "

" in
  let prompt :=
    match activeFile context with
    | Some f =>
        ((prompt ++ ("Current active file: " ++ path f ++ "
")) ++ ("Language: " ++ language f ++ "

")) ++ ("--- File Content ---
" ++ file_content f ++ "
--- End File ---

")
    | None => prompt
    end in
  let prompt :=
    if nonempty (techStack context)
    then prompt ++ ("Tech Stack: " ++ match techStack context with Some t => t | None => "" end ++ "

")
    else prompt in
  let prompt :=
    match dependencies context with
    | Some d =>
        match Manifest.dependencies d with
        | Some m =>
            if truthy m then
              let deps := Object_keys m in
              prompt ++ ("Dependencies: " ++ join ", " (firstn 10 deps)
                         ++ (if Nat.ltb 10 (length deps) then "..." else "") ++ "

")
            else prompt
        | None => prompt
        end
    | None => prompt
    end in
  prompt.

(** *** Normalising the reply *)

(** Generate a unique ID: [Date.now()] and [Math.random()] are read from
    the host, and the reading counts as one tick. *)
Definition generateId : M nat string :=
  fun tick => (Returns (fresh_id host tick), S tick).

(** [new Date()]. *)
Definition newDate : M nat Z :=
  fun tick => (Returns (date_at host tick), S tick).

(** The values [data.steps[0]], [data.steps[1]], ... visited by
    [for (let i = 0; i < data.steps.length; i++)], for whatever value the
    reply has under [steps]. Reading [length] of [null] throws; a boolean
    or a number has no [length], so the loop body never runs; a string is
    visited character by character; an object that is not an array is
    visited up to its own [length] property, absent indices reading as
    [undefined]. *)
Definition visited (data_steps : JValue) : outcome (list JsAny) :=
  match data_steps with
  | JNull => Throws (TypeError "Cannot read properties of null (reading 'length')")
  | JBool _ | JNum _ => Returns []
  | JStr s => Returns (map (fun c => Some (JStr c)) (chars s))
  | JArr elems => Returns (map Some elems)
  | JObj props =>
      obind (loop_bound (assoc "length" props)) (fun bound =>
        match bound with
        | Some n => Returns (map (fun i => assoc (decimal i) props) (seq 0 n))
        | None => Diverges
        end)
  end.

(** [step && typeof step === 'object']. *)
Definition object_shaped (step : JsAny) : bool :=
  match step with
  | Some v => truthy v && typeof_object v
  | None => false
  end.

(** The object pushed for the element [step] met at index [i]. *)
Definition make_step (i : nat) (step : JValue) : M nat PlanStep :=
  step_id <- generateId ;;
  description <-
    (if has_property "description" step
     then match get_property step "description" with
          | Some d => lift (ToString d)
          | None => ret "undefined"
          end
     else ret ("Step " ++ decimal (i + 1))) ;;
  let files :=
    if has_property "files" step && isArray_any (get_property step "files")
    then elements_of (get_property step "files")
    else [] in
  ret {| step_id := step_id; description := description; files := files; order := i |}.

(** The loop over the visited elements, from index [i] on, pushing onto [steps]. *)
Fixpoint parse_steps (i : nat) (elems : list JsAny) (steps : list PlanStep)
  : M nat (list PlanStep) :=
  match elems with
  | [] => ret steps
  | step :: rest =>
      steps' <-
        (if object_shaped step
         then match step with
              | Some v => s <- make_step i v ;; ret (steps ++ [s])%list%list
              | None => ret steps
              end
         else ret steps) ;;
      parse_steps (S i) rest steps'
  end.

(** Parse AI response into Plan structure. *)
Definition parsePlanResponse (task : string) (response : JValue) : M nat Plan :=
  plan_id <- generateId ;;
  created <- newDate ;;
  if truthy response && typeof_object response && has_property "steps" response then
    match get_property response "steps" with
    | Some data_steps =>
        elems <- lift (visited data_steps) ;;
        steps <- parse_steps 0 elems [] ;;
        ret {| id := plan_id; task := task; steps := steps; createdAt := created;
               status := if Nat.ltb 0 (length steps) then active else draft |}
    | None =>
        ret {| id := plan_id; task := task; steps := []; createdAt := created;
               status := draft |}
    end
  else
    ret {| id := plan_id; task := task; steps := []; createdAt := created;
           status := draft |}.

(** *** The orchestrator *)

(** The [try] block of [generatePlan]. *)
Definition generatePlan_try (task : string) (options : option PlanOptions) : M nat Plan :=
  context <- gatherContext task options ;;
  let prompt := buildPrompt task context in
  response <- AIService.generatePlan host config prompt ;;
  parsedPlan <- parsePlanResponse task response ;;
  ret parsedPlan.

(** Its [catch] block. *)
Definition generatePlan_catch (task : string) (error : thrown) : M nat Plan :=
  let errorMessage := AIService.error_text error in
  failed_id <- generateId ;;
  created <- newDate ;;
  ret {| id := failed_id; task := task; steps := []; createdAt := created;
         status := failed |}.

(** Generate a plan for the given task. *)
Definition generatePlan (task : string) (options : option PlanOptions) : M nat Plan :=
  try_catch (generatePlan_try task options) (generatePlan_catch task).

End Service.

End PlanService.

(** ** Vocabulary of the statements *)

(** The blank line that ends a section of the prompt. *)
Definition blank_line : string := "

".

Section Vocabulary.
Context {num : Type} {JN : JsNumber num}.

(** How many of the visited elements pass [step && typeof step === 'object']. *)
Definition shaped_count (elems : list (JsAny num)) : nat :=
  length (filter PlanService.object_shaped elems).

(** What the specification calls an object-shaped element of [steps]: a
    JSON object or a JSON array. A string, a number, a boolean and [null]
    are not. Written from the specification, not from the test the code
    makes. *)
Definition object_or_array (v : JValue num) : bool :=
  match v with
  | JObj _ | JArr _ => true
  | JNull | JBool _ | JNum _ | JStr _ => false
  end.

(** How many elements of a JSON array are objects or arrays. *)
Definition object_elements (elems : list (JValue num)) : nat :=
  length (filter object_or_array elems).

(** The number of steps the specification expects of a reply: one for each
    element of the array under [steps] that is an object or an array, none
    when there is no such array. *)
Definition expected_steps (raw : JValue num) : nat :=
  match get_property raw "steps" with
  | Some (JArr elems) => object_elements elems
  | _ => 0
  end.

(** [String(d)] yields a text. *)
Definition converts (d : JValue num) : bool :=
  match ToString d with
  | Returns _ => true
  | _ => false
  end.

(** The element has no [description], or one that [String] converts. *)
Definition description_converts (step : JValue num) : bool :=
  match get_property step "description" with
  | Some d => converts d
  | None => true
  end.

(** The replies on which the normaliser is proved to return: the value
    under [steps], if any, is not [null], is not an object carrying a
    [length] of its own, and when it is an array every element's
    [description] converts to text. *)
Definition normalizable (raw : JValue num) : bool :=
  match get_property raw "steps" with
  | Some JNull => false
  | Some (JObj props) => negb (has_property "length" (JObj props))
  | Some (JArr elems) => forallb description_converts elems
  | _ => true
  end.

(** What the step pushed for the element [v] met at index [k] looks like. *)
Definition step_for (k : nat) (v : JValue num) (step : PlanStep num) : Prop :=
  order step = k /\
  (has_property "description" v = false ->
   description step = "Step " ++ decimal (k + 1)) /\
  (forall d, get_property v "description" = Some d ->
   ToString d = Returns (description step)) /\
  files step = match get_property v "files" with
               | Some (JArr fs) => fs
               | _ => []
               end.

(** The plan [parsePlanResponse] returns when it starts at [tick] and the
    loop leaves [steps]. *)
Definition plan_of (host : Host num) (task : string) (tick : nat)
    (steps : list (PlanStep num)) : Plan num :=
  {| id := fresh_id host tick; task := task; steps := steps;
     createdAt := date_at host (S tick);
     status := if Nat.ltb 0 (length steps) then active else draft |}.

(** The priority order of the tech-stack labels, following the
    specification: each row lists the dependency names that select the label. *)
Definition stack_priority : list (list string * string) :=
  [ (["react"], "React");
    (["vue"], "Vue.js");
    (["angular"; "@angular/core"], "Angular");
    (["svelte"], "Svelte");
    (["next"], "Next.js");
    (["node"], "Node.js");
    (["express"], "Express.js");
    (["nest"], "NestJS");
    (["typescript"], "TypeScript");
    (["storybook"], "Storybook") ].

(** First match wins: the label of the first row with a matching name. *)
Fixpoint first_match (matches : string -> bool) (table : list (list string * string))
  : string :=
  match table with
  | [] => "JavaScript/TypeScript"
  | (names, label) :: rest =>
      if existsb matches names then label else first_match matches rest
  end.

(** The value a name has in the merged map of a manifest, an entry of
    [devDependencies] overriding the one of [dependencies]. *)
Definition merged_value (pkgJson : JValue num) (name : string) : JsAny num :=
  PlanService.spread_get (get_property pkgJson "dependencies")
    (get_property pkgJson "devDependencies") name.

(** The merged key set of a manifest. *)
Definition merged_keys (pkgJson : JValue num) : list string :=
  (match get_property pkgJson "dependencies" with
   | Some deps => Object_keys deps
   | None => []
   end ++
   match get_property pkgJson "devDependencies" with
   | Some devDeps => Object_keys devDeps
   | None => []
   end)%list.

(** The label as the specification words it: a name matches when it is
    in the merged key set. *)
Definition label_by_key_set (pkgJson : JValue num) : string :=
  first_match (fun name => existsb (String.eqb name) (merged_keys pkgJson)) stack_priority.

(** The label by truthy values: a name matches when its merged value is truthy. *)
Definition label_by_truthy_value (pkgJson : JValue num) : string :=
  first_match (fun name => truthy_any (merged_value pkgJson name)) stack_priority.

(** A context with its [dependencies] field removed. *)
Definition without_dependencies (c : Context num) : Context num :=
  {| workspaceRoot := workspaceRoot c; activeFile := activeFile c;
     workspaceStructure := workspaceStructure c; techStack := techStack c;
     dependencies := None |}.

(** The plan [generatePlan] returns from its [catch] block entered at [tick]. *)
Definition failed_plan (host : Host num) (request : string) (tick : nat) : Plan num :=
  {| id := fresh_id host tick; task := request; steps := [];
     createdAt := date_at host (S tick); status := failed |}.

(** The active file recorded for an open document. *)
Definition document_snapshot (document : TextDocument) : ActiveFile :=
  {| path := fsPath document; file_content := getText document;
     language := languageId document |}.

(** The names [getWorkspaceStructure] keeps from a directory listing. *)
Definition directory_names (entries : list (string * FileType)) : list string :=
  map fst (filter (fun entry => Nat.eqb (snd entry) FileType_Directory) entries).

(** What the workspace structure is expected to be: the directories
    listed under the root, and the empty list when there is no root or the
    listing fails. *)
Definition listed_directories (host : Host num) : list string :=
  match rootPath host with
  | Some root =>
      if String.eqb root "" then []
      else match readDirectory host root with
           | Returns entries => directory_names entries
           | _ => []
           end
  | None => []
  end.

(** The context as it stands before the manifest is looked at. *)
Definition context_before_manifest (host : Host num) (options : option PlanOptions)
  : Context num :=
  {| workspaceRoot := rootPath host;
     activeFile :=
       if flag options includeActiveFile
       then option_map document_snapshot (activeTextEditor host) else None;
     workspaceStructure :=
       if flag options includeWorkspaceStructure
       then Some (listed_directories host) else None;
     techStack := None;
     dependencies := None |}.

(** The path of the manifest, when there is a root to look under. *)
Definition manifest_path (host : Host num) : option string :=
  match rootPath host with
  | Some root =>
      if String.eqb root "" then None
      else if String.eqb (path_join host root "package.json") "" then None
      else Some (path_join host root "package.json")
  | None => None
  end.

(** The manifest [package.json] at the workspace root cannot be read, or
    is read and is not JSON. *)
Definition manifest_unusable (host : Host num) : Prop :=
  forall root, rootPath host = Some root ->
    (exists e, readFile host (path_join host root "package.json") = Throws e) \/
    (exists text, readFile host (path_join host root "package.json") = Returns text /\
                  JSON_parse host text = None).

(** The editor and file system answer every call. *)
Definition host_settles (host : Host num) : Prop :=
  (forall p, readDirectory host p <> Diverges) /\
  (forall p, readFile host p <> Diverges).

End Vocabulary.

(** ** A concrete runtime and host for the worked examples *)

(** Numbers as integers: exact for integers of magnitude below 2^53 (up to
    which [i++] still moves). A loop bound written as text is read when it
    is a plain run of decimal digits and counts as [NaN] otherwise; signs,
    fractions, exponents and blanks are not interpreted, and none of the
    examples has such a bound. *)
Definition int_loop_bound (n : Z) : option nat :=
  if Z.leb n (2 ^ 53) then Some (Z.to_nat n) else None.

Definition digits_loop_bound (s : string) : option nat :=
  match NilZero.uint_of_string s with
  | Some d => int_loop_bound (Z.of_nat (Nat.of_uint d))
  | None => Some 0
  end.

#[export] Instance IntNumber : JsNumber Z := {|
  num_truthy := fun n => negb (Z.eqb n 0);
  num_to_string := fun n => NilZero.string_of_int (Z.to_int n);
  num_loop_bound := int_loop_bound;
  str_loop_bound := digits_loop_bound
|}.

Definition demo_config : AIServiceConfig :=
  {| apiKey := "sk-demo"; endpoint := ""; model := "claude-3-5-sonnet-20241022";
     maxTokens := 4096%Z |}.

(** A workspace at [/work] with two directories and a file, whose
    manifest cannot be read, and an endpoint that answers every request
    with HTTP 429. *)
Definition demo_host : Host Z :=
  {| rootPath := Some "/work";
     activeTextEditor := None;
     readDirectory := fun _ => Returns [("src", 2); ("README.md", 1); ("docs", 2)];
     readFile := fun _ => Throws (OtherError "ENOENT: no such file or directory");
     path_join := fun a b => a ++ "/" ++ b;
     JSON_parse := fun _ => None;
     chat_completions_create := fun _ _ _ =>
       Throws (APIError (Some 429) "Too Many Requests" None);
     fresh_id := fun n => "id" ++ decimal n;
     date_at := fun n => Z.of_nat n |}.

(** The same workspace with a manifest read as [manifest], and an
    endpoint that answers with [reply]; [JSON.parse] is given on the two
    texts it is asked to parse. *)
Definition demo_host_with (manifest : option (JValue Z)) (reply : ChatCompletion)
    (parsed_reply : option (JValue Z)) : Host Z :=
  {| rootPath := Some "/work";
     activeTextEditor := None;
     readDirectory := fun _ => Returns [("src", 2); ("README.md", 1); ("docs", 2)];
     readFile := fun _ => Returns "<package.json>";
     path_join := fun a b => a ++ "/" ++ b;
     JSON_parse := fun text =>
       if String.eqb text "<package.json>" then manifest else parsed_reply;
     chat_completions_create := fun _ _ _ => Returns reply;
     fresh_id := fun n => "id" ++ decimal n;
     date_at := fun n => Z.of_nat n |}.

Definition reply_with (text : option string) : ChatCompletion :=
  {| choices := [ {| choice_message := Some {| content := text |} |} ] |}.

(** Inputs of the worked examples. *)

Definition all_options : option PlanOptions :=
  Some {| includeActiveFile := Some true;
          includeWorkspaceStructure := Some true;
          includeDependencies := Some true |}.

(** [{ steps: [{}, {}, {}] }] *)
Definition three_empty_steps : JValue Z :=
  JObj [("steps", JArr [JObj []; JObj []; JObj []])].

(** [{ steps: ["x", [], null, { description: 5, files: ["a.ts"] }] }] *)
Definition mixed_steps : JValue Z :=
  JObj [("steps",
         JArr [JStr "x"; JArr []; JNull;
               JObj [("description", JNum 5%Z); ("files", JArr [JStr "a.ts"])]])].

(** [{ steps: null }] *)
Definition null_steps : JValue Z := JObj [("steps", JNull)].

(** [{ steps: [] }] *)
Definition no_steps : JValue Z := JObj [("steps", JArr [])].

(** [{ steps: [{ description: "x" }] }] *)
Definition one_described_step : JValue Z :=
  JObj [("steps", JArr [JObj [("description", JStr "x")]])].

(** A manifest with react at an empty version and vue at [^3.4.0]. *)
Definition react_without_version : JValue Z :=
  JObj [("dependencies", JObj [("react", JStr ""); ("vue", JStr "^3.4.0")])].

(** A manifest with react and vue. *)
Definition react_and_vue : JValue Z :=
  JObj [("dependencies", JObj [("vue", JStr "^3.4.0"); ("react", JStr "^18.2.0")]);
        ("devDependencies", JObj [("typescript", JStr "^5.0.0")])].

(** A manifest without a [dependencies] key. *)
Definition manifest_without_dependencies : JValue Z :=
  JObj [("name", JStr "app"); ("version", JStr "1.0.0")].

Definition eleven_dependencies : list (string * JValue Z) :=
  map (fun name => (name, JStr "1.0.0"))
    ["a"; "b"; "c"; "d"; "e"; "f"; "g"; "h"; "i"; "j"; "k"].

Definition context_with (deps : list (string * JValue Z)) : Context Z :=
  {| workspaceRoot := Some "/work"; activeFile := None; workspaceStructure := None;
     techStack := None;
     dependencies := Some {| Manifest.dependencies := Some (JObj deps);
                             Manifest.devDependencies := Some (JObj []) |} |}.

(** ** The editor window, and what the extension does to it *)

(** Message types sent from extension to webview. *)
Inductive ExtensionMessage (num : Type) :=
| generation_start
| generation_complete (plan : Plan num)
| generation_error (error : string)
| plan_selected (plan : Plan num)
| plan_deleted
| copied
| exported
| config_status (hasConfig : bool)
| recent_plans (plans : list (Plan num))
| config_info (model endpoint : string) (hasConfig : bool).
Arguments generation_start {num}.
Arguments generation_complete {num}.
Arguments generation_error {num}.
Arguments plan_selected {num}.
Arguments plan_deleted {num}.
Arguments copied {num}.
Arguments exported {num}.
Arguments config_status {num}.
Arguments recent_plans {num}.
Arguments config_info {num}.

(** Message types sent from webview to extension. *)
Inductive WebviewMessage :=
| req_generatePlan (task : string)
| req_selectPlan (planId : string)
| req_navigateToFile (filePath : string)
| req_deletePlan
| req_copyStep (stepId : string)
| req_copyPlan
| req_exportPlan
| req_getRecentPlans
| req_checkConfig
| req_openSettings.

(** The calls the extension makes on the editor, in the order made:
    messages posted to the webview, the plan list written to global state,
    commands, notifications, the clipboard, the save dialog and files. *)
Inductive Event (num : Type) :=
| Posted (message : ExtensionMessage num)
| Stored (plans : list (Plan num))
| Executed (command argument : string)
| Warned (text : string)
| ErrorShown (text : string)
| ClipboardWritten (text : string)
| SaveDialogShown (defaultName : string)
| FileWritten (uri text : string).
Arguments Posted {num}.
Arguments Stored {num}.
Arguments Executed {num}.
Arguments Warned {num}.
Arguments ErrorShown {num}.
Arguments ClipboardWritten {num}.
Arguments SaveDialogShown {num}.
Arguments FileWritten {num}.

(** How the editor answers those calls. *)
Record Window (num : Type) := {
  (** [vscode.window.showWarningMessage(text, ...items)]: the item picked,
      if any *)
  showWarningMessage : string -> list string -> outcome (option string);
  (** [vscode.commands.executeCommand(command, argument)] *)
  executeCommand : string -> string -> outcome unit;
  (** [vscode.env.clipboard.writeText(text)] *)
  clipboard_writeText : string -> outcome unit;
  (** [vscode.window.showSaveDialog] for a default file name: the
      location chosen, if any *)
  showSaveDialog : string -> outcome (option string);
  (** [vscode.workspace.fs.writeFile(uri, Buffer.from(text))] *)
  writeFile : string -> string -> outcome unit;
  (** [globalState.update(PLAN_STORAGE_KEY, plans)] *)
  globalState_update : list (Plan num) -> outcome unit;
  (** [vscode.Uri.joinPath(vscode.Uri.file(root), filePath)] *)
  joinPath : string -> string -> string;
  (** [date.toLocaleString()] *)
  toLocaleString : Z -> string
}.
Arguments showWarningMessage {num}.
Arguments executeCommand {num}.
Arguments clipboard_writeText {num}.
Arguments showSaveDialog {num}.
Arguments writeFile {num}.
Arguments globalState_update {num}.
Arguments joinPath {num}.
Arguments toLocaleString {num}.

(** Run a computation on a part of the state. *)
Definition zoom {S T A : Type} (part : S -> T) (update : T -> S -> S) (m : M T A)
  : M S A :=
  fun s =>
    match m (part s) with
    | (o, t') => (o, update t' s)
    end.

(** Record a call that is not awaited. *)
Definition emit {E : Type} (e : E) : M (list E) unit :=
  modify (fun log => (log ++ [e])%list).

(** ** ConfigService (src/services/configService.ts) *)

(** The white space [String.prototype.trim] strips, among the code units
    a character of this development can hold (0 to 255): tab, line feed,
    vertical tab, form feed, carriage return, space and no-break space. *)
Definition is_white (c : ascii) : bool :=
  match nat_of_ascii c with
  | 9 | 10 | 11 | 12 | 13 | 32 | 160 => true
  | _ => false
  end.

Fixpoint trimStart (s : string) : string :=
  match s with
  | EmptyString => EmptyString
  | String c rest => if is_white c then trimStart rest else s
  end.

Fixpoint trimEnd (s : string) : string :=
  match s with
  | EmptyString => EmptyString
  | String c rest =>
      match trimEnd rest with
      | EmptyString => if is_white c then EmptyString else String c EmptyString
      | kept => String c kept
      end
  end.

(** [s.trim()]. *)
Definition trim (s : string) : string := trimEnd (trimStart s).

(** A string as a condition. *)
Definition nonblank (s : string) : bool := negb (String.eqb s "").

(** The settings of the [codecompass] section, as
    [vscode.workspace.getConfiguration] hands them out: a key is set or
    not. [maxTokens] is a number the user writes: a whole number here, of
    either sign. *)
Record Settings := {
  setting_apiKey : option string;
  setting_endpoint : option string;
  setting_model : option string;
  setting_maxTokens : option Z
}.

(** The two variables read from [process.env]. *)
Record Env := {
  ANTHROPIC_API_KEY : option string;
  OPENAI_API_KEY : option string
}.

Module ConfigService.

Definition DEFAULT_MODEL : string := "claude-3-5-sonnet-20241022".
Definition DEFAULT_MAX_TOKENS : Z := 4096%Z.
Definition DEFAULT_ENDPOINT : string := "".

(** [config.get(key, defaultValue)]. *)
Definition get {A : Type} (value : option A) (defaultValue : A) : A :=
  match value with
  | Some v => v
  | None => defaultValue
  end.

(** [a || b] for [a: string | undefined]. *)
Definition or_else (a : option string) (b : string) : string :=
  match a with
  | Some s => if nonblank s then s else b
  | None => b
  end.

Section Service.
Variable config : Settings.
Variable env : Env.

(** Get API key from configuration, with environment variable fallback. *)
Definition apiKey : string :=
  let configKey := get (setting_apiKey config) "" in
  let trimmedConfigKey := if nonblank configKey then trim configKey else "" in
  if nonblank trimmedConfigKey then trimmedConfigKey
  else or_else (ANTHROPIC_API_KEY env) (or_else (OPENAI_API_KEY env) "").

(** Get custom endpoint URL for OpenAI-compatible APIs. *)
Definition endpoint : string :=
  or_else (Some (get (setting_endpoint config) DEFAULT_ENDPOINT)) DEFAULT_ENDPOINT.

(** Get model identifier. *)
Definition model : string :=
  or_else (Some (get (setting_model config) DEFAULT_MODEL)) DEFAULT_MODEL.

(** Get max tokens setting: [0] is the one falsy whole number and gives
    the default; any other number, a negative one included, is returned as
    it is. *)
Definition maxTokens : Z :=
  let n := get (setting_maxTokens config) DEFAULT_MAX_TOKENS in
  if Z.eqb n 0 then DEFAULT_MAX_TOKENS else n.

(** Get complete AI service configuration. *)
Definition aiConfig : AIServiceConfig :=
  Build_AIServiceConfig apiKey endpoint model maxTokens.

(** Open VSCode settings UI at CodeCompass configuration section. *)
Definition openSettings {num : Type} (window : Window num) : M (list (Event num)) unit :=
  emit (Executed "workbench.action.openSettings" "codecompass.apiKey") ;;;
  lift (executeCommand window "workbench.action.openSettings" "codecompass.apiKey").

(** Check if API key is configured and show warning if missing. *)
Definition checkApiKey {num : Type} (window : Window num) : M (list (Event num)) bool :=
  if negb (nonblank apiKey) then
    let text := "CodeCompass: API key not configured. Set it in settings to use AI features." in
    emit (Warned text) ;;;
    action <- lift (showWarningMessage window text ["Open Settings"; "Dismiss"]) ;;
    (match action with
     | Some picked => when (String.eqb picked "Open Settings") (openSettings window)
     | None => ret tt
     end) ;;;
    ret false
  else ret true.

End Service.
End ConfigService.

(** ** PlanViewProvider (src/ui/PlanViewProvider.ts) *)

Definition newline : string := "
".

Fixpoint string_map (f : ascii -> ascii) (s : string) : string :=
  match s with
  | EmptyString => EmptyString
  | String c rest => String (f c) (string_map f rest)
  end.

Definition between (lo hi : nat) (c : ascii) : bool :=
  Nat.leb lo (nat_of_ascii c) && Nat.leb (nat_of_ascii c) hi.

(** A code unit matched by [[a-z0-9]] under the [i] flag: a digit or an
    ASCII letter of either case. *)
Definition is_alnum (c : ascii) : bool :=
  between 48 57 c || between 65 90 c || between 97 122 c.

(** [s.replace(/[^a-z0-9]/gi, "_")]. *)
Definition replace_non_alnum (s : string) : string :=
  string_map (fun c => if is_alnum c then c else "_"%char) s.

(** [toLowerCase] on one code unit below 256: the ASCII capitals and the
    Latin-1 capitals (192 to 222, the multiplication sign 215 apart) move
    up by 32. *)
Definition lower_char (c : ascii) : ascii :=
  if between 65 90 c || (between 192 222 c && negb (Nat.eqb (nat_of_ascii c) 215))
  then ascii_of_nat (nat_of_ascii c + 32)
  else c.

(** [s.toLowerCase()]. *)
Definition toLowerCase (s : string) : string := string_map lower_char s.

(** The provider's fields, the calls it has made on the editor so far,
    and the tick of the clock and random source its plan service reads. *)
Record Provider (num : Type) := {
  _view : bool;
  _currentPlan : option (Plan num);
  _recentPlans : list (Plan num);
  calls : list (Event num);
  ticks : nat
}.
Arguments _view {num}.
Arguments _currentPlan {num}.
Arguments _recentPlans {num}.
Arguments calls {num}.
Arguments ticks {num}.

Module PlanViewProvider.

Section View.
Context {num : Type} {JN : JsNumber num}.
Variable host : Host num.
Variable window : Window num.
(** The configuration of the [AIService] behind the plan service, and
    the settings and environment the [ConfigService] reads. *)
Variable ai_config : AIServiceConfig.
Variable config : Settings.
Variable env : Env.

Local Abbreviation Plan := (Plan num).
Local Abbreviation Provider := (Provider num).

Definition set_calls (l : list (Event num)) (s : Provider) : Provider :=
  {| _view := _view s; _currentPlan := _currentPlan s; _recentPlans := _recentPlans s;
     calls := l; ticks := ticks s |}.

Definition set_ticks (t : nat) (s : Provider) : Provider :=
  {| _view := _view s; _currentPlan := _currentPlan s; _recentPlans := _recentPlans s;
     calls := calls s; ticks := t |}.

Definition set_currentPlan (p : option Plan) (s : Provider) : Provider :=
  {| _view := _view s; _currentPlan := p; _recentPlans := _recentPlans s;
     calls := calls s; ticks := ticks s |}.

(** A call on the editor, recorded. *)
Definition call (e : Event num) : M Provider unit :=
  zoom calls set_calls (emit e).

(** Post a message to the webview. *)
Definition postMessage (message : ExtensionMessage num) : M Provider unit :=
  s <- get ;;
  if _view s then call (Posted message) else ret tt.

(** One element of [files.join(", ")]: [null] gives the empty text. *)
Definition element_text (x : JValue num) : outcome string :=
  match x with
  | JNull => Returns ""
  | _ => ToString x
  end.

(** [values.join(sep)]. *)
Fixpoint join_values (sep : string) (values : list (JValue num)) : outcome string :=
  match values with
  | [] => Returns ""
  | x :: rest =>
      match rest with
      | [] => element_text x
      | _ =>
          obind (element_text x) (fun sx =>
          obind (join_values sep rest) (fun sr =>
          Returns (sx ++ sep ++ sr)))
      end
  end.

(** The lines pushed for one step. *)
Definition step_lines (step : PlanStep num) : outcome (list string) :=
  let numbered := decimal (order step + 1) ++ ". " ++ description step in
  match files step with
  | [] => Returns [numbered; ""]
  | _ =>
      obind (join_values ", " (files step)) (fun joined =>
      Returns [numbered; "   Files: " ++ joined; ""])
  end.

Fixpoint steps_lines (steps : list (PlanStep num)) : outcome (list string) :=
  match steps with
  | [] => Returns []
  | step :: rest =>
      obind (step_lines step) (fun first =>
      obind (steps_lines rest) (fun others =>
      Returns (first ++ others)%list))
  end.

(** Format a plan as markdown. *)
Definition formatPlanAsMarkdown (plan : Plan) : outcome string :=
  let lines :=
    [ "# " ++ task plan;
      "";
      "*Plan generated on " ++ toLocaleString window (createdAt plan) ++ "*";
      "";
      "## Steps";
      "" ] in
  obind (steps_lines (steps plan)) (fun body =>
  Returns (join newline (lines ++ body)%list)).

(** Send detailed config info to webview for footer display. *)
Definition sendConfigInfo : M Provider unit :=
  postMessage
    (config_info (ConfigService.model config)
       (if nonblank (ConfigService.endpoint config) then ConfigService.endpoint config
        else "default")
       (nonblank (ConfigService.apiKey config env))).

(** Send config status to webview. *)
Definition sendConfigStatus : M Provider unit :=
  let hasConfig := nonblank (ConfigService.apiKey config env) in
  postMessage (config_status hasConfig) ;;;
  sendConfigInfo.

(** Send recent plans to webview. *)
Definition sendRecentPlans : M Provider unit :=
  s <- get ;;
  postMessage (recent_plans (_recentPlans s)).

(** Save recent plans to global storage. The stored form of a plan has
    the same fields, the date as its time value. *)
Definition saveRecentPlans : M Provider unit :=
  try_catch
    (s <- get ;;
     let plans := _recentPlans s in
     call (Stored plans) ;;;
     lift (globalState_update window plans))
    (fun error => ret tt).

Definition is_failed (s : PlanStatus) : bool :=
  match s with
  | failed => true
  | _ => false
  end.

(** Handle plan generation request. *)
Definition handleGeneratePlan (task : string) : M Provider unit :=
  if negb (nonblank (ConfigService.apiKey config env)) then
    postMessage
      (generation_error "API key not configured. Please set your API key in settings.")
  else
    postMessage generation_start ;;;
    try_catch
      (plan <- zoom ticks set_ticks
                 (PlanService.generatePlan host ai_config task
                    (Some {| includeActiveFile := Some true;
                             includeWorkspaceStructure := Some true;
                             includeDependencies := Some true |})) ;;
       if is_failed (status plan) then
         postMessage
           (generation_error
              "Failed to generate plan. Please check your API configuration and try again.")
       else
         modify (set_currentPlan (Some plan)) ;;;
         saveRecentPlans ;;;
         postMessage (generation_complete plan))
      (fun error => postMessage (generation_error (AIService.error_text error))).

(** Handle selecting a plan from the list. *)
Definition handleSelectPlan (planId : string) : M Provider unit :=
  s <- get ;;
  match find (fun p => String.eqb (id p) planId) (_recentPlans s) with
  | Some plan =>
      modify (set_currentPlan (Some plan)) ;;;
      postMessage (plan_selected plan)
  | None => ret tt
  end.

(** Handle file navigation request. *)
Definition handleNavigateToFile (filePath : string) : M Provider unit :=
  if negb (nonempty (rootPath host)) then
    call (Warned "No workspace folder is open. Cannot navigate to file.")
  else
    let root := match rootPath host with Some r => r | None => "" end in
    let fullPath := joinPath window root filePath in
    try_catch
      (call (Executed "vscode.open" fullPath) ;;;
       lift (executeCommand window "vscode.open" fullPath))
      (fun error => call (ErrorShown ("Failed to open file: " ++ filePath))).

(** Handle delete plan request. *)
Definition handleDeletePlan : M Provider unit :=
  modify (set_currentPlan None) ;;;
  saveRecentPlans ;;;
  postMessage plan_deleted.

(** Handle copy plan request. *)
Definition handleCopyPlan : M Provider unit :=
  s <- get ;;
  match _currentPlan s with
  | None => ret tt
  | Some plan =>
      markdown <- lift (formatPlanAsMarkdown plan) ;;
      call (ClipboardWritten markdown) ;;;
      lift (clipboard_writeText window markdown) ;;;
      postMessage copied
  end.

(** The default file name offered by the save dialog. *)
Definition exportName (task : string) : string :=
  toLowerCase (replace_non_alnum task) ++ ".md".

(** Handle export plan request. *)
Definition handleExportPlan : M Provider unit :=
  s <- get ;;
  match _currentPlan s with
  | None => ret tt
  | Some plan =>
      markdown <- lift (formatPlanAsMarkdown plan) ;;
      call (SaveDialogShown (exportName (task plan))) ;;;
      uri <- lift (showSaveDialog window (exportName (task plan))) ;;
      match uri with
      | Some location =>
          call (FileWritten location markdown) ;;;
          lift (writeFile window location markdown) ;;;
          postMessage exported
      | None => ret tt
      end
  end.

(** Handle open settings request. *)
Definition handleOpenSettings : M Provider unit :=
  call (Executed "workbench.action.openSettings" "codecompass") ;;;
  lift (executeCommand window "workbench.action.openSettings" "codecompass").

(** Handle messages from the webview. [copyStep] has no case. *)
Definition handleWebviewMessage (message : WebviewMessage) : M Provider unit :=
  match message with
  | req_generatePlan task => handleGeneratePlan task
  | req_selectPlan planId => handleSelectPlan planId
  | req_navigateToFile filePath => handleNavigateToFile filePath
  | req_deletePlan => handleDeletePlan
  | req_copyStep _ => ret tt
  | req_copyPlan => handleCopyPlan
  | req_exportPlan => handleExportPlan
  | req_getRecentPlans => sendRecentPlans
  | req_checkConfig => sendConfigStatus
  | req_openSettings => handleOpenSettings
  end.

End View.
End PlanViewProvider.

(** ** The webview script (webview.js, carried in src/unnamed/part_001) *)

(** The [state] object of the script. The handlers below are given as
    what they do to it; after writing it they redraw the panel
    ([updateUIState], [showToast]), which reads the state and never writes it. *)
Record ClientState (num : Type) := {
  currentPlan : option (Plan num);
  isGenerating : bool;
  recentPlans : list (Plan num);
  hasConfig : bool;
  activePanel : string
}.
Arguments currentPlan {num}.
Arguments isGenerating {num}.
Arguments recentPlans {num}.
Arguments hasConfig {num}.
Arguments activePanel {num}.

(** The classes [updateUIState] sets: which of the five sections carry
    [hidden], the two classes of the status indicator, and whether the
    generate button is disabled. *)
Record Panel := {
  emptyNoConfig_hidden : bool;
  emptyNoPlan_hidden : bool;
  inputSection_hidden : bool;
  generatingState_hidden : bool;
  planDisplay_hidden : bool;
  indicator_configured : bool;
  indicator_generating : bool;
  generateButton_disabled : bool
}.

Module WebviewScript.

Section Script.
Context {num : Type}.

Local Abbreviation Plan := (Plan num).
Local Abbreviation ClientState := (ClientState num).

(** [list.splice(list.findIndex(test), 1)] when the index is found. *)
Fixpoint remove_first (test : Plan -> bool) (plans : list Plan) : list Plan :=
  match plans with
  | [] => []
  | p :: rest => if test p then rest else p :: remove_first test rest
  end.

Definition handleGenerationStart (state : ClientState) : ClientState :=
  {| currentPlan := None; isGenerating := true; recentPlans := recentPlans state;
     hasConfig := hasConfig state; activePanel := activePanel state |}.

(** Save to recent plans if not already there. *)
Definition handleGenerationComplete (plan : Plan) (state : ClientState) : ClientState :=
  {| currentPlan := Some plan; isGenerating := false;
     recentPlans :=
       plan :: remove_first (fun p => String.eqb (id p) (id plan)) (recentPlans state);
     hasConfig := hasConfig state; activePanel := activePanel state |}.

Definition handleGenerationError (error : string) (state : ClientState) : ClientState :=
  {| currentPlan := None; isGenerating := false; recentPlans := recentPlans state;
     hasConfig := hasConfig state; activePanel := activePanel state |}.

Definition handlePlanSelected (plan : Plan) (state : ClientState) : ClientState :=
  {| currentPlan := Some plan; isGenerating := isGenerating state;
     recentPlans := recentPlans state;
     hasConfig := hasConfig state; activePanel := "current" |}.

(** Remove from recent plans: [shift] drops the first entry. *)
Definition handlePlanDeleted (state : ClientState) : ClientState :=
  {| currentPlan := None; isGenerating := isGenerating state;
     recentPlans := tl (recentPlans state);
     hasConfig := hasConfig state; activePanel := activePanel state |}.

Definition handleConfigStatus (configured : bool) (state : ClientState) : ClientState :=
  {| currentPlan := currentPlan state; isGenerating := isGenerating state;
     recentPlans := recentPlans state;
     hasConfig := configured; activePanel := activePanel state |}.

Definition handleRecentPlans (plans : list Plan) (state : ClientState) : ClientState :=
  {| currentPlan := currentPlan state; isGenerating := isGenerating state;
     recentPlans := plans;
     hasConfig := hasConfig state; activePanel := activePanel state |}.

(** Handle messages from extension. [copied] and [exported] only show a
    toast, and [config-info] has no case. *)
Definition handleExtensionMessage (message : ExtensionMessage num) (state : ClientState)
  : ClientState :=
  match message with
  | generation_start => handleGenerationStart state
  | generation_complete plan => handleGenerationComplete plan state
  | generation_error error => handleGenerationError error state
  | plan_selected plan => handlePlanSelected plan state
  | plan_deleted => handlePlanDeleted state
  | copied => state
  | exported => state
  | config_status configured => handleConfigStatus configured state
  | recent_plans plans => handleRecentPlans plans state
  | config_info _ _ _ => state
  end.

(** The classes [updateUIState] leaves on a panel. In the first branch
    the [generating] class of the indicator is not touched. *)
Definition updateUIState (state : ClientState) (panel : Panel) : Panel :=
  if negb (hasConfig state) then
    {| emptyNoConfig_hidden := false; emptyNoPlan_hidden := true;
       inputSection_hidden := true; generatingState_hidden := true;
       planDisplay_hidden := true;
       indicator_configured := false;
       indicator_generating := indicator_generating panel;
       generateButton_disabled := true |}
  else if isGenerating state then
    {| emptyNoConfig_hidden := true; emptyNoPlan_hidden := true;
       inputSection_hidden := true; generatingState_hidden := false;
       planDisplay_hidden := true;
       indicator_configured := false; indicator_generating := true;
       generateButton_disabled := true |}
  else match currentPlan state with
  | None =>
    {| emptyNoConfig_hidden := true; emptyNoPlan_hidden := false;
       inputSection_hidden := false; generatingState_hidden := true;
       planDisplay_hidden := true;
       indicator_configured := true; indicator_generating := false;
       generateButton_disabled := false |}
  | Some _ =>
    {| emptyNoConfig_hidden := true; emptyNoPlan_hidden := true;
       inputSection_hidden := true; generatingState_hidden := true;
       planDisplay_hidden := false;
       indicator_configured := true; indicator_generating := false;
       generateButton_disabled := false |}
  end.

(** The message [handleGenerate] sends for the text of the task input,
    if it sends one. *)
Definition handleGenerate (value : string) : option WebviewMessage :=
  let task := trim value in
  if negb (nonblank task) then None
  else Some (req_generatePlan task).

End Script.

(** [s.replace(/c/g, by)] for a single character [c]. *)
Fixpoint replace_all (c : ascii) (by_text : string) (s : string) : string :=
  match s with
  | EmptyString => EmptyString
  | String x rest =>
      if Ascii.eqb x c then by_text ++ replace_all c by_text rest
      else String x (replace_all c by_text rest)
  end.

Definition dquote : ascii := ascii_of_nat 34.

Definition escapeHtml (unsafe : string) : string :=
  replace_all "'"%char "&#039;"
    (replace_all dquote "&quot;"
       (replace_all ">"%char "&gt;"
          (replace_all "<"%char "&lt;"
             (replace_all "&"%char "&amp;" unsafe)))).

(** [formatDate(date)] for a [Date] with time value [date], read at the
    moment [now] (both in milliseconds); [toLocaleDateString] is the
    browser's short date. *)
Definition formatDate (toLocaleDateString : Z -> string) (now date : Z) : string :=
  let diff := (now - date)%Z in
  if (diff <? 60000)%Z then "now"
  else if (diff <? 3600000)%Z then decimal (Z.to_nat (diff / 60000)) ++ "m ago"
  else if (diff <? 86400000)%Z then decimal (Z.to_nat (diff / 3600000)) ++ "h ago"
  else toLocaleDateString date.

End WebviewScript.

(** The vocabulary of the further properties. *)

(** Every character of the string is white space. *)
Fixpoint all_white (s : string) : bool :=
  match s with
  | EmptyString => true
  | String c rest => is_white c && all_white rest
  end.

(** The string starts, or ends, with white space. *)
Definition starts_white (s : string) : bool :=
  match s with
  | EmptyString => false
  | String c _ => is_white c
  end.

Fixpoint ends_white (s : string) : bool :=
  match s with
  | EmptyString => false
  | String c EmptyString => is_white c
  | String _ rest => ends_white rest
  end.

(** A variable of the environment that is unset or empty. *)
Definition unset (v : option string) : bool :=
  match v with
  | Some s => negb (nonblank s)
  | None => true
  end.

(** The labels [detectTechStack] can answer. *)
Definition stack_labels : list string :=
  (map snd stack_priority ++ ["JavaScript/TypeScript"])%list.

Section ProviderVocabulary.
Context {num : Type}.

(** A call that writes the plan list [plans] to global state, or any
    other call. *)
Definition stores_only (plans : list (Plan num)) (e : Event num) : Prop :=
  match e with
  | Stored written => written = plans
  | _ => True
  end.

(** From [s] to [s'] the provider kept its view and its list of recent
    plans, only added calls, and wrote nothing but that list to global state. *)
Definition list_kept (s s' : Provider num) : Prop :=
  _recentPlans s' = _recentPlans s /\
  _view s' = _view s /\
  exists added,
    calls s' = (calls s ++ added)%list /\
    Forall (stores_only (_recentPlans s)) added.

(** A computation that keeps the list, however it ends. *)
Definition keeps_list {A : Type} (m : M (Provider num) A) : Prop :=
  forall s o s', m s = (o, s') -> list_kept s s'.

Definition key_missing_text : string :=
  "API key not configured. Please set your API key in settings.".

Definition generation_failed_text : string :=
  "Failed to generate plan. Please check your API configuration and try again.".

(** A character a default file name is made of: a lower-case ASCII
    letter, a digit or the underscore. *)
Definition is_name_char (c : ascii) : bool :=
  between 48 57 c || between 97 122 c || Ascii.eqb c "_"%char.

Fixpoint string_forall (test : ascii -> bool) (s : string) : bool :=
  match s with
  | EmptyString => true
  | String c rest => test c && string_forall test rest
  end.

End ProviderVocabulary.

(** How many of the four main sections of a panel are shown: the two
    empty states, the generating state and the plan display. *)
Definition shown_sections (p : Panel) : nat :=
  length (filter negb
    [emptyNoConfig_hidden p; emptyNoPlan_hidden p;
     generatingState_hidden p; planDisplay_hidden p]).

(** The text that stands for one character in escaped HTML. *)
Definition escape_char (c : ascii) : string :=
  if Ascii.eqb c "&"%char then "&amp;"
  else if Ascii.eqb c "<"%char then "&lt;"
  else if Ascii.eqb c ">"%char then "&gt;"
  else if Ascii.eqb c WebviewScript.dquote then "&quot;"
  else if Ascii.eqb c "'"%char then "&#039;"
  else String c EmptyString.

Fixpoint escape_each (s : string) : string :=
  match s with
  | EmptyString => EmptyString
  | String c rest => escape_char c ++ escape_each rest
  end.

(** A character that cannot open or close a tag or an attribute value. *)
Definition is_markup_free (c : ascii) : bool :=
  negb (Ascii.eqb c "<"%char || Ascii.eqb c ">"%char
        || Ascii.eqb c WebviewScript.dquote || Ascii.eqb c "'"%char).

(** A window in which every call succeeds, the warning is answered by
    [Open Settings] and the save dialog by a location. *)
Definition demo_window : Window Z :=
  {| showWarningMessage := fun _ _ => Returns (Some "Open Settings");
     executeCommand := fun _ _ => Returns tt;
     clipboard_writeText := fun _ => Returns tt;
     showSaveDialog := fun name => Returns (Some ("/exports/" ++ name));
     writeFile := fun _ _ => Returns tt;
     globalState_update := fun _ => Returns tt;
     joinPath := fun a b => a ++ "/" ++ b;
     toLocaleString := fun _ => "1/1/2026, 12:00:00 PM" |}.

(** Settings with a key padded by blanks, and an empty environment. *)
Definition demo_settings : Settings :=
  {| setting_apiKey := Some "  sk-demo ";
     setting_endpoint := None;
     setting_model := Some "";
     setting_maxTokens := Some 0%Z |}.

Definition demo_env : Env :=
  {| ANTHROPIC_API_KEY := Some "sk-from-env"; OPENAI_API_KEY := None |}.

Definition stored_plan (identifier request : string) : Plan Z :=
  {| id := identifier; task := request; steps := []; createdAt := 0%Z; status := draft |}.

(** A provider with a view and two plans loaded from storage. *)
Definition demo_provider : Provider Z :=
  {| _view := true;
     _currentPlan := None;
     _recentPlans := [stored_plan "p1" "add a login page"; stored_plan "p2" "fix the tests"];
     calls := [];
     ticks := 0 |}.

Definition demo_client : ClientState Z :=
  {| currentPlan := None; isGenerating := true;
     recentPlans := [stored_plan "p1" "add a login page"; stored_plan "p2" "fix the tests"];
     hasConfig := true; activePanel := "current" |}.

(** * Properties *)

(** Unfold the monad until the goal is a plain case analysis. *)
Ltac unmonad :=
  unfold bind, ret, lift, throw, try_catch, when, modify, get in *.

Section Normaliser.
Context {num : Type} {JN : JsNumber num}.
Variable host : Host num.

Lemma has_property_get (k : string) (v : JValue num) :
  has_property k v = true <-> exists d, get_property v k = Some d.
Proof.
  destruct v; simpl; try (split; [discriminate | intros [d H]; discriminate]).
  destruct (assoc k props) as [d|]; split; intros H; try discriminate; eauto.
  destruct H as [d' H]; discriminate.
Qed.

Lemma has_property_false_get (k : string) (v : JValue num) :
  has_property k v = false <-> get_property v k = None.
Proof.
  destruct v; simpl; try (split; reflexivity).
  destruct (assoc k props); split; intros H; congruence.
Qed.

Lemma files_of_step (v : JValue num) :
  (if has_property "files" v && isArray_any (get_property v "files")
   then elements_of (get_property v "files")
   else []) =
  match get_property v "files" with
  | Some (JArr fs) => fs
  | _ => []
  end.
Proof.
  destruct (has_property "files" v) eqn:Hh.
  - destruct (get_property v "files") as [f|]; [|reflexivity].
    destruct f; reflexivity.
  - apply has_property_false_get in Hh. rewrite Hh. reflexivity.
Qed.

(** One pushed step: it costs one tick and is shaped by the index and the
    element alone. *)
Lemma make_step_returns (i : nat) (v : JValue num) (tick tick' : nat) (step : PlanStep num) :
  PlanService.make_step host i v tick = (Returns step, tick') ->
  tick' = S tick /\ step_id step = fresh_id host tick /\ step_for i v step.
Proof.
  unfold PlanService.make_step, PlanService.generateId, step_for. unmonad.
  rewrite files_of_step.
  destruct (has_property "description" v) eqn:Hd.
  - destruct (get_property v "description") as [d|] eqn:Hg.
    + destruct (ToString d) as [s| |] eqn:Hs; intros H; inversion H; subst; simpl.
      repeat split; try discriminate.
      intros d' Hd'. congruence.
    + apply has_property_get in Hd. destruct Hd as [d Hd']. congruence.
  - intros H; inversion H; subst; simpl.
    apply has_property_false_get in Hd.
    repeat split; congruence.
Qed.

Lemma make_step_total (i : nat) (v : JValue num) (tick : nat) :
  description_converts v = true ->
  exists step, PlanService.make_step host i v tick = (Returns step, S tick).
Proof.
  unfold description_converts, converts, PlanService.make_step, PlanService.generateId.
  unmonad. intros H.
  destruct (has_property "description" v) eqn:Hd.
  - destruct (get_property v "description") as [d|] eqn:Hg.
    + destruct (ToString d) as [s| |]; try discriminate. eauto.
    + eauto.
  - eauto.
Qed.

Lemma shaped_count_cons (e : JsAny num) (rest : list (JsAny num)) :
  shaped_count (e :: rest) =
  (if PlanService.object_shaped e then 1 else 0) + shaped_count rest.
Proof.
  unfold shaped_count. simpl. destruct (PlanService.object_shaped e); reflexivity.
Qed.

(** The loop: the steps it returns are the ones it started with followed
    by one new step per object-shaped element, in the order met, each
    carrying the index at which its element was met. *)
Lemma parse_steps_spec (elems : list (JsAny num)) :
  forall (i : nat) (acc : list (PlanStep num)) (tick tick' : nat) (steps : list (PlanStep num)),
  PlanService.parse_steps host i elems acc tick = (Returns steps, tick') ->
  exists news,
    steps = (acc ++ news)%list /\
    length news = shaped_count elems /\
    tick' = tick + shaped_count elems /\
    forall j v, nth_error elems j = Some (Some v) ->
      PlanService.object_shaped (Some v) = true ->
      exists step,
        nth_error news (shaped_count (firstn j elems)) = Some step /\
        step_for (i + j) v step.
Proof.
  induction elems as [|e rest IH]; intros i acc tick tick' steps H.
  - simpl in H. unmonad. inversion H; subst.
    exists []. rewrite app_nil_r. repeat split; try (unfold shaped_count; simpl; lia).
    intros j v Hj. destruct j; discriminate.
  - simpl in H. rewrite shaped_count_cons.
    destruct (PlanService.object_shaped e) eqn:Hshape.
    + destruct e as [v0|]; [|discriminate].
      unfold bind at 1 in H. unfold bind at 1 in H.
      destruct (PlanService.make_step host i v0 tick) as [[s | err |] t1] eqn:Hmk;
        try discriminate.
      apply make_step_returns in Hmk. destruct Hmk as (Ht1 & _ & Hfor). subst t1.
      unfold ret at 1 in H.
      apply IH in H. destruct H as (news & Hsteps & Hlen & Htick & Hnth).
      exists (s :: news). repeat split.
      * rewrite Hsteps, <- app_assoc. reflexivity.
      * simpl. lia.
      * lia.
      * intros j v Hj Hv. destruct j as [|j].
        -- simpl in Hj. inversion Hj; subst v0.
           exists s. split; [reflexivity|]. rewrite Nat.add_0_r. exact Hfor.
        -- simpl in Hj. destruct (Hnth j v Hj Hv) as (step & Hs & Hf).
           exists step. split.
           ++ simpl firstn. rewrite shaped_count_cons, Hshape. exact Hs.
           ++ replace (i + S j) with (S i + j) by lia. exact Hf.
    + unfold bind at 1 in H. unfold ret at 1 in H.
      apply IH in H. destruct H as (news & Hsteps & Hlen & Htick & Hnth).
      exists news. repeat split; try assumption.
      intros j v Hj Hv. destruct j as [|j].
      * simpl in Hj. inversion Hj; subst e. congruence.
      * simpl in Hj. destruct (Hnth j v Hj Hv) as (step & Hs & Hf).
        exists step. split.
        -- simpl firstn. rewrite shaped_count_cons, Hshape. exact Hs.
        -- replace (i + S j) with (S i + j) by lia. exact Hf.
Qed.

(** The loop returns when every object-shaped element has a description
    that converts. *)
Lemma parse_steps_total (elems : list (JsAny num)) :
  (forall v, In (Some v) elems -> description_converts v = true) ->
  forall (i : nat) (acc : list (PlanStep num)) (tick : nat),
  exists steps tick', PlanService.parse_steps host i elems acc tick = (Returns steps, tick').
Proof.
  induction elems as [|e rest IH]; intros Hall i acc tick.
  - simpl. unmonad. eauto.
  - simpl. destruct (PlanService.object_shaped e) eqn:Hshape.
    + destruct e as [v0|]; [|discriminate].
      destruct (make_step_total i v0 tick) as [s Hs].
      { apply Hall. left. reflexivity. }
      unfold bind at 1. unfold bind at 1. rewrite Hs. unfold ret at 1.
      apply IH. intros v Hv. apply Hall. right. exact Hv.
    + unfold bind at 1. unfold ret at 1.
      apply IH. intros v Hv. apply Hall. right. exact Hv.
Qed.

Lemma steps_guard (raw : JValue num) :
  truthy raw && typeof_object raw && has_property "steps" raw = has_property "steps" raw.
Proof.
  destruct raw; simpl; try reflexivity.
  - destruct b; reflexivity.
  - rewrite andb_false_r. reflexivity.
  - rewrite andb_false_r. reflexivity.
Qed.

(** [parsePlanResponse] without the monad: two ticks for the plan's
    identifier and date, then the loop over what [steps] holds. *)
Lemma parsePlanResponse_unfold (task : string) (raw : JValue num) (tick : nat) :
  PlanService.parsePlanResponse host task raw tick =
  match get_property raw "steps" with
  | Some data_steps =>
      match PlanService.visited data_steps with
      | Returns elems =>
          match PlanService.parse_steps host 0 elems [] (S (S tick)) with
          | (Returns steps, tick') => (Returns (plan_of host task tick steps), tick')
          | (Throws e, tick') => (Throws e, tick')
          | (Diverges, tick') => (Diverges, tick')
          end
      | Throws e => (Throws e, S (S tick))
      | Diverges => (Diverges, S (S tick))
      end
  | None => (Returns (plan_of host task tick []), S (S tick))
  end.
Proof.
  unfold PlanService.parsePlanResponse, PlanService.generateId, PlanService.newDate.
  unfold bind at 1. unfold bind at 1. rewrite steps_guard.
  destruct (has_property "steps" raw) eqn:Hs.
  - apply has_property_get in Hs. destruct Hs as [d Hd]. rewrite Hd.
    unfold lift, bind. destruct (PlanService.visited d) as [elems|e|]; reflexivity.
  - apply has_property_false_get in Hs. rewrite Hs. reflexivity.
Qed.

(** Whatever the reply, a returned plan keeps the task, is [active] or
    [draft], and is [active] exactly when it has a step. *)
Lemma parsePlanResponse_returns (task : string) (raw : JValue num) (tick tick' : nat)
    (plan : Plan num) :
  PlanService.parsePlanResponse host task raw tick = (Returns plan, tick') ->
  exists steps, plan = plan_of host task tick steps.
Proof.
  rewrite parsePlanResponse_unfold.
  destruct (get_property raw "steps") as [d|].
  - destruct (PlanService.visited d); try discriminate.
    destruct (PlanService.parse_steps host 0 a [] (S (S tick))) as [[st|e|] t];
      try discriminate.
    intros H; inversion H; eauto.
  - intros H; inversion H; eauto.
Qed.

(** On an array under [steps], the returned steps are described by
    [parse_steps_spec]. *)
Lemma parsePlanResponse_array (task : string) (raw : JValue num) (tick tick' : nat)
    (plan : Plan num) (elems : list (JValue num)) :
  get_property raw "steps" = Some (JArr elems) ->
  PlanService.parsePlanResponse host task raw tick = (Returns plan, tick') ->
  length (steps plan) = shaped_count (map Some elems) /\
  forall i v, nth_error elems i = Some v ->
    PlanService.object_shaped (Some v) = true ->
    exists step,
      nth_error (steps plan) (shaped_count (firstn i (map Some elems))) = Some step /\
      step_for i v step.
Proof.
  intros Hsteps. rewrite parsePlanResponse_unfold, Hsteps. simpl.
  destruct (PlanService.parse_steps host 0 (map Some elems) [] (S (S tick)))
    as [[st|e|] t] eqn:Hloop; try discriminate.
  intros H; inversion H; subst; clear H.
  apply parse_steps_spec in Hloop. destruct Hloop as (news & Hst & Hlen & _ & Hnth).
  simpl in Hst. subst st. simpl. split; [exact Hlen|].
  intros i v Hi Hv.
  apply (Hnth i v); [|exact Hv].
  rewrite nth_error_map, Hi. reflexivity.
Qed.

Lemma shaped_count_chars (l : list string) :
  shaped_count (map (fun c => Some (JStr c)) l) = 0.
Proof.
  induction l as [|c l IH]; [reflexivity|].
  simpl map. rewrite shaped_count_cons, IH.
  unfold PlanService.object_shaped. simpl. rewrite andb_false_r. reflexivity.
Qed.

(** The test the loop makes, [step && typeof step === 'object'], accepts
    exactly the elements the specification calls object-shaped. *)
Lemma object_shaped_object_or_array (v : JValue num) :
  PlanService.object_shaped (Some v) = object_or_array v.
Proof.
  unfold PlanService.object_shaped.
  destruct v; simpl; try reflexivity; apply andb_false_r.
Qed.

Lemma shaped_count_object_elements (elems : list (JValue num)) :
  shaped_count (map Some elems) = object_elements elems.
Proof.
  induction elems as [|v rest IH]; [reflexivity|].
  simpl map. rewrite shaped_count_cons, IH, object_shaped_object_or_array.
  unfold object_elements. simpl filter.
  destruct (object_or_array v); reflexivity.
Qed.

Lemma shaped_count_firstn (i : nat) (elems : list (JValue num)) :
  shaped_count (firstn i (map Some elems)) = object_elements (firstn i elems).
Proof.
  rewrite <- shaped_count_object_elements. f_equal. apply firstn_map.
Qed.

(** On [null] under [steps] the loop header reads [length] of [null]. *)
Lemma parsePlanResponse_null_steps (task : string) (raw : JValue num) (tick : nat) :
  get_property raw "steps" = Some JNull ->
  PlanService.parsePlanResponse host task raw tick =
    (Throws (TypeError "Cannot read properties of null (reading 'length')"), S (S tick)).
Proof.
  intros Hsteps. rewrite parsePlanResponse_unfold, Hsteps. reflexivity.
Qed.

End Normaliser.

Section NormaliserClaims.
Context {num : Type} {JN : JsNumber num}.
Variable host : Host num.

(** The replies on which the normaliser does what the specification
    asks. For every task and every parsed reply whose [steps] value, if
    any, is not [null] and not an object with a [length] of its own, and in
    whose [steps] array every element's [description] converts to text,
    [parsePlanResponse] returns a plan for that task with exactly one step
    per element of the [steps] array that is an object or an array, the
    other elements being skipped, and with no step when the reply is not
    an object, has no [steps], or holds a boolean, number, string or
    length-less object there. *)
Lemma parsePlanResponse_returns_on_normalizable
    (request : string) (raw : JValue num) (tick : nat) :
  normalizable raw = true ->
  exists plan tick',
    PlanService.parsePlanResponse host request raw tick = (Returns plan, tick') /\
    task plan = request /\
    length (steps plan) = expected_steps raw.
Proof.
  unfold normalizable, expected_steps. intros Hn.
  rewrite parsePlanResponse_unfold.
  destruct (get_property raw "steps") as [d|] eqn:Hd.
  2:{ eexists _, _. repeat split. }
  destruct d as [|b|n|s|elems|props]; try discriminate; simpl PlanService.visited.
  - eexists _, _. repeat split.
  - eexists _, _. repeat split.
  - destruct (parse_steps_total host (map (fun c => Some (JStr c)) (chars s)))
      with (i := 0) (acc := @nil (PlanStep num)) (tick := S (S tick))
      as (st & t & Hloop).
    { intros v Hv. apply in_map_iff in Hv. destruct Hv as (c & Hc & _).
      inversion Hc; subst. reflexivity. }
    rewrite Hloop. eexists _, _. repeat split.
    apply parse_steps_spec in Hloop. destruct Hloop as (news & Hst & Hlen & _).
    simpl in Hst. subst st. simpl. rewrite Hlen. apply shaped_count_chars.
  - destruct (parse_steps_total host (map Some elems))
      with (i := 0) (acc := @nil (PlanStep num)) (tick := S (S tick))
      as (st & t & Hloop).
    { intros v Hv. apply in_map_iff in Hv. destruct Hv as (v' & Hv' & Hin).
      inversion Hv'; subst. rewrite forallb_forall in Hn. apply Hn. exact Hin. }
    rewrite Hloop. eexists _, _. repeat split.
    apply parse_steps_spec in Hloop. destruct Hloop as (news & Hst & Hlen & _).
    simpl in Hst. subst st. simpl.
    rewrite <- shaped_count_object_elements. exact Hlen.
  - simpl in Hn. destruct (assoc "length" props); [discriminate|].
    simpl. eexists _, _. repeat split.
Qed.

(** C1, at the input where the code departs from it. When the reply holds
    [null] under [steps], as in [{ steps: null }], the specification
    expects a plan without steps; the loop header reads [length] of [null]
    instead, and the normaliser throws a [TypeError] and returns no plan.
    The same function guards [null] one level up and one level down: a
    reply that is [null] and a [null] element of the [steps] array both
    give a plan without steps. *)
Theorem parsePlanResponse_throws_on_null_steps
    (request : string) (raw : JValue num) (tick : nat) :
  get_property raw "steps" = Some JNull ->
  expected_steps raw = 0 /\
  PlanService.parsePlanResponse host request raw tick =
    (Throws (TypeError "Cannot read properties of null (reading 'length')"), S (S tick)) /\
  ~ (exists plan tick',
       PlanService.parsePlanResponse host request raw tick = (Returns plan, tick')) /\
  PlanService.parsePlanResponse host request JNull tick =
    (Returns (plan_of host request tick []), S (S tick)) /\
  PlanService.parsePlanResponse host request (JObj [("steps", JArr [JNull])]) tick =
    (Returns (plan_of host request tick []), S (S tick)).
Proof.
  intros Hsteps.
  pose proof (parsePlanResponse_null_steps host request raw tick Hsteps) as Hthrow.
  split; [|split; [|split; [|split]]].
  - unfold expected_steps. rewrite Hsteps. reflexivity.
  - exact Hthrow.
  - intros (plan & tick' & H). rewrite Hthrow in H. discriminate H.
  - reflexivity.
  - reflexivity.
Qed.

(** C5. On every reply on which the normaliser is proved to return, it
    returns a plan; and whenever [parsePlanResponse] returns a plan, the
    plan is [active] exactly when it has at least one step and [draft]
    otherwise, it has as many steps as the [steps] array has elements that
    are objects or arrays, and for every such element met at index [i] the
    step made for it (found after the steps of the objects and arrays
    before it) has [order] [i], whatever the element holds, and the
    description [Step] followed by [i + 1] when the element has no
    [description]. *)
Theorem parsePlanResponse_order_description_status
    (task : string) (raw : JValue num) (tick : nat) :
  (normalizable raw = true ->
   exists plan tick',
     PlanService.parsePlanResponse host task raw tick = (Returns plan, tick')) /\
  forall plan tick',
    PlanService.parsePlanResponse host task raw tick = (Returns plan, tick') ->
    (status plan = active <-> steps plan <> []) /\
    (status plan = draft <-> steps plan = []) /\
    forall elems,
      get_property raw "steps" = Some (JArr elems) ->
      length (steps plan) = object_elements elems /\
      forall i v,
        nth_error elems i = Some v ->
        object_or_array v = true ->
        exists step,
          nth_error (steps plan) (object_elements (firstn i elems)) = Some step /\
          order step = i /\
          (has_property "description" v = false ->
           description step = "Step " ++ decimal (i + 1)).
Proof.
  split.
  - intros Hn.
    destruct (parsePlanResponse_returns_on_normalizable task raw tick Hn)
      as (plan & tick' & H & _).
    exists plan, tick'. exact H.
  - intros plan tick' H.
    pose proof (parsePlanResponse_returns host _ _ _ _ _ H) as [st Hplan].
    split; [|split].
    + subst plan. simpl. destruct st; simpl; split; intros; congruence.
    + subst plan. simpl. destruct st; simpl; split; intros; congruence.
    + intros elems Hsteps.
      destruct (parsePlanResponse_array host _ _ _ _ _ _ Hsteps H) as [Hlen Hnth].
      split.
      { rewrite <- shaped_count_object_elements. exact Hlen. }
      intros i v Hi Hv.
      rewrite <- object_shaped_object_or_array in Hv.
      destruct (Hnth i v Hi Hv) as (step & Hs & Hord & Hdesc & _).
      exists step. rewrite <- shaped_count_firstn. auto.
Qed.

(** C9. An array met as an element of the [steps] array passes the
    object test, unlike a string, a number or [null], and whenever the
    normaliser returns, the plan has a step for it with its index as [order],
    the default description [Step] followed by [index + 1], and no files. *)
Theorem parsePlanResponse_array_element_makes_step
    (task : string) (raw : JValue num) (tick tick' : nat) (plan : Plan num)
    (elems inner : list (JValue num)) (i : nat) :
  PlanService.parsePlanResponse host task raw tick = (Returns plan, tick') ->
  get_property raw "steps" = Some (JArr elems) ->
  nth_error elems i = Some (JArr inner) ->
  (PlanService.object_shaped (Some (JArr inner)) = true /\
   (forall s, PlanService.object_shaped (Some (JStr s : JValue num)) = false) /\
   (forall n, PlanService.object_shaped (Some (JNum n)) = false) /\
   PlanService.object_shaped (Some (JNull : JValue num)) = false) /\
  exists step,
    nth_error (steps plan) (shaped_count (firstn i (map Some elems))) = Some step /\
    order step = i /\
    description step = "Step " ++ decimal (i + 1) /\
    files step = [].
Proof.
  intros H Hsteps Hi. split.
  - unfold PlanService.object_shaped. simpl. repeat split; intros;
      try reflexivity; apply andb_false_r.
  - destruct (parsePlanResponse_array host _ _ _ _ _ _ Hsteps H) as [_ Hnth].
    destruct (Hnth i (JArr inner) Hi eq_refl) as (step & Hs & Hord & Hdesc & _ & Hfiles).
    exists step. repeat split; auto.
Qed.

End NormaliserClaims.

Section ClientClaims.
Context {num : Type} {JN : JsNumber num}.
Variable host : Host num.
Variable config : AIServiceConfig.

(** The classification table of [handleError], row by row: 401, 429 and
    400 from the provider, any other provider error, a [TypeError] that
    mentions [fetch], and everything else. *)
Lemma handleError_taxonomy :
  (forall m c, type (AIService.handleError (APIError (Some 401) m c)) = authentication) /\
  (forall m c, type (AIService.handleError (APIError (Some 429) m c)) = rate_limit) /\
  (forall m c, type (AIService.handleError (APIError (Some 400) m c)) = bad_request) /\
  (forall n m c, n <> 401 -> n <> 429 -> n <> 400 ->
     type (AIService.handleError (APIError (Some n) m c)) = unknown /\
     message (AIService.handleError (APIError (Some n) m c)) =
       "API error (" ++ decimal n ++ "): " ++ m) /\
  (forall m, includes "fetch" m = true ->
     type (AIService.handleError (TypeError m)) = network) /\
  (forall m, includes "fetch" m = false ->
     type (AIService.handleError (TypeError m)) = unknown /\
     message (AIService.handleError (TypeError m)) = "Unexpected error: " ++ m) /\
  (forall m, type (AIService.handleError (OtherError m)) = unknown /\
     message (AIService.handleError (OtherError m)) = "Unexpected error: " ++ m) /\
  (forall text, type (AIService.handleError (NonError text)) = unknown /\
     message (AIService.handleError (NonError text)) = "Unexpected error: " ++ text).
Proof.
  repeat split; intros; simpl; try reflexivity.
  - unfold AIService.handleError, AIService.status_is.
    destruct (Nat.eqb_spec n 401); [contradiction|].
    destruct (Nat.eqb_spec n 429); [contradiction|].
    destruct (Nat.eqb_spec n 400); [contradiction|]. reflexivity.
  - unfold AIService.handleError, AIService.status_is.
    destruct (Nat.eqb_spec n 401); [contradiction|].
    destruct (Nat.eqb_spec n 429); [contradiction|].
    destruct (Nat.eqb_spec n 400); [contradiction|]. reflexivity.
  - unfold AIService.handleError. rewrite H. reflexivity.
  - unfold AIService.handleError. rewrite H. reflexivity.
  - unfold AIService.handleError. rewrite H. reflexivity.
Qed.


(** The client without the monad. *)
Lemma AIService_generatePlan_unfold {S : Type} (prompt : string) (s : S) :
  AIService.generatePlan host config prompt s =
  match chat_completions_create host config AIService.SYSTEM_PROMPT prompt with
  | Returns response =>
      match AIService.first_content response with
      | Some text =>
          if String.eqb text ""
          then (Throws (AIErrorObject (AIService.handleError (AIErrorObject
                  (AIService.createError "No response content received from AI service")))), s)
          else match JSON_parse host text with
               | Some v => (Returns v, s)
               | None => (Returns (JObj [("raw", JStr text)]), s)
               end
      | None =>
          (Throws (AIErrorObject (AIService.handleError (AIErrorObject
             (AIService.createError "No response content received from AI service")))), s)
      end
  | Throws e => (Throws (AIErrorObject (AIService.handleError e)), s)
  | Diverges => (Diverges, s)
  end.
Proof.
  unfold AIService.generatePlan, JSON_parse_call. unmonad.
  destruct (chat_completions_create host config AIService.SYSTEM_PROMPT prompt)
    as [response|e|]; try reflexivity.
  destruct (AIService.first_content response) as [text|]; simpl; [|reflexivity].
  destruct (String.eqb text ""); [reflexivity|].
  destruct (JSON_parse host text); reflexivity.
Qed.

(** C4. For every completion reply: when the first choice carries a
    non-empty text that [JSON.parse] accepts, the client returns the parsed
    value as it is; when it carries a non-empty text that [JSON.parse]
    rejects, the client returns [{ raw: text }] and does not throw; when it
    carries no text (no choice, no message, [null], or the empty text, all of
    which fail [!content]), the client throws an [AIError] of kind [unknown]. *)
Theorem AIService_generatePlan_reply {S : Type} (prompt : string)
    (response : ChatCompletion) (s : S) :
  chat_completions_create host config AIService.SYSTEM_PROMPT prompt = Returns response ->
  (forall text v,
     AIService.first_content response = Some text -> text <> "" ->
     JSON_parse host text = Some v ->
     AIService.generatePlan host config prompt s = (Returns v, s)) /\
  (forall text,
     AIService.first_content response = Some text -> text <> "" ->
     JSON_parse host text = None ->
     AIService.generatePlan host config prompt s =
       (Returns (JObj [("raw", JStr text)]), s)) /\
  (AIService.first_content response = None \/
   AIService.first_content response = Some "" ->
   exists e,
     AIService.generatePlan host config prompt s = (Throws (AIErrorObject e), s) /\
     type e = unknown).
Proof.
  intros Hreply. rewrite AIService_generatePlan_unfold, Hreply.
  repeat split.
  - intros text v Hc Hne Hp. rewrite Hc.
    destruct (String.eqb_spec text ""); [contradiction|]. rewrite Hp. reflexivity.
  - intros text Hc Hne Hp. rewrite Hc.
    destruct (String.eqb_spec text ""); [contradiction|]. rewrite Hp. reflexivity.
  - intros [Hc|Hc]; rewrite Hc; simpl; eexists; split; reflexivity.
Qed.

(** C3, at the input where the code departs from it. When the reply
    carries no text, the error the client builds with the message
    [No response content received from AI service] is thrown inside the
    [try] block, so it passes through [handleError] like any foreign value:
    the caller gets kind [unknown] with the message
    [Unexpected error: [object Object]], in which the underlying message
    does not occur. *)
Theorem AIService_no_content_message_lost {S : Type} (prompt : string)
    (response : ChatCompletion) (s : S) :
  chat_completions_create host config AIService.SYSTEM_PROMPT prompt = Returns response ->
  AIService.no_content (AIService.first_content response) = true ->
  let underlying := AIService.createError "No response content received from AI service" in
  exists e,
    AIService.generatePlan host config prompt s = (Throws (AIErrorObject e), s) /\
    type e = unknown /\
    original e = Some (AIErrorObject underlying) /\
    message e = "Unexpected error: [object Object]" /\
    includes (message underlying) (message e) = false.
Proof.
  intros Hreply Hnone. rewrite AIService_generatePlan_unfold, Hreply.
  unfold AIService.no_content in Hnone.
  destruct (AIService.first_content response) as [text|].
  - rewrite Hnone. eexists. repeat split.
  - eexists. repeat split.
Qed.

End ClientClaims.

Section ContextClaims.
Context {num : Type} {JN : JsNumber num}.
Variable host : Host num.

Lemma getWorkspaceStructure_settles {S : Type} (s : S) :
  (forall p, readDirectory host p <> Diverges) ->
  PlanService.getWorkspaceStructure host s = (Returns (listed_directories host), s).
Proof.
  intros Hdir. unfold PlanService.getWorkspaceStructure, listed_directories, directory_names.
  destruct (rootPath host) as [root|]; [|reflexivity].
  destruct (String.eqb root ""); [reflexivity|]. unmonad.
  specialize (Hdir root).
  destruct (readDirectory host root); try reflexivity. contradiction.
Qed.

Lemma getWorkspaceStructure_never_throws {S : Type} (s s' : S) (e : thrown) :
  PlanService.getWorkspaceStructure host s <> (Throws e, s').
Proof.
  unfold PlanService.getWorkspaceStructure.
  destruct (rootPath host) as [root|]; [|discriminate].
  destruct (String.eqb root ""); [discriminate|]. unmonad.
  destruct (readDirectory host root); discriminate.
Qed.

(** The outer [try] of [gatherContext] has a [catch] that returns. *)
Lemma gatherContext_body_never_throws (options : option PlanOptions)
    (c c' : Context num) (e : thrown) :
  PlanService.gatherContext_body host options c <> (Throws e, c').
Proof.
  unfold PlanService.gatherContext_body, try_catch.
  match goal with |- context [match ?b with _ => _ end] => destruct b as [[u|err|] st] end;
    unfold ret; discriminate.
Qed.

Lemma detectTechStack_settles (pkgJson : JValue num) :
  PlanService.detectTechStack pkgJson <> Diverges.
Proof.
  unfold PlanService.detectTechStack, PlanService.get_member.
  destruct pkgJson; simpl; discriminate.
Qed.

(** The manifest block returns when the file system answers, touches only
    [dependencies] and [techStack], and changes nothing when the manifest
    cannot be read or parsed. *)
Lemma gatherDependencies_frame (p : string) (c : Context num) :
  readFile host p <> Diverges ->
  exists c',
    PlanService.gatherDependencies host p c = (Returns tt, c') /\
    workspaceRoot c' = workspaceRoot c /\
    activeFile c' = activeFile c /\
    workspaceStructure c' = workspaceStructure c /\
    ((exists e, readFile host p = Throws e) \/
     (exists text, readFile host p = Returns text /\ JSON_parse host text = None) ->
     c' = c).
Proof.
  intros Hfile. unfold PlanService.gatherDependencies, JSON_parse_call. unmonad.
  destruct (readFile host p) as [text|e|] eqn:Hread; [| |contradiction].
  - destruct (JSON_parse host text) as [pkgJson|] eqn:Hparse.
    + pose proof (detectTechStack_settles pkgJson) as Hstack.
      unfold PlanService.get_member in *.
      destruct pkgJson; simpl in *;
        try (destruct (PlanService.detectTechStack _) as [stack|e|];
             [| |contradiction]);
        eexists; repeat split;
        intros [[e' He']|[text' [Ht' Hp']]]; congruence.
    + eexists; repeat split.
  - eexists; repeat split.
Qed.

(** [gatherContext] when the host answers: the context filled in before
    the manifest is looked at, then the manifest block run on it when
    dependencies are asked for and there is a manifest path. *)
Lemma gatherContext_run {S : Type} (request : string) (options : option PlanOptions)
    (s : S) :
  host_settles host ->
  exists ctx,
    PlanService.gatherContext host request options s = (Returns ctx, s) /\
    if flag options includeDependencies then
      match manifest_path host with
      | Some p =>
          PlanService.gatherDependencies host p (context_before_manifest host options)
            = (Returns tt, ctx)
      | None => ctx = context_before_manifest host options
      end
    else ctx = context_before_manifest host options.
Proof.
  intros [Hdir Hfile].
  unfold PlanService.gatherContext, PlanService.gatherContext_body.
  set (c0 := {| workspaceRoot := rootPath host; activeFile := None;
                workspaceStructure := None; techStack := None;
                dependencies := None |}).
  set (b1 := when (flag options includeActiveFile) _).
  set (b2 := when (flag options includeWorkspaceStructure) _).
  set (b3 := when (flag options includeDependencies) _).
  assert (H12 : exists c1, b1 c0 = (Returns tt, c1) /\
            b2 c1 = (Returns tt, context_before_manifest host options)).
  { subst b1 b2 c0. unfold when, context_before_manifest.
    destruct (flag options includeActiveFile);
      destruct (flag options includeWorkspaceStructure);
      destruct (activeTextEditor host); eexists; (split; [reflexivity|]);
      unfold bind; try rewrite (getWorkspaceStructure_settles _ Hdir); reflexivity. }
  destruct H12 as (c1 & E1 & E2).
  assert (H3 : exists c3, b3 (context_before_manifest host options) = (Returns tt, c3) /\
            if flag options includeDependencies then
              match manifest_path host with
              | Some p =>
                  PlanService.gatherDependencies host p
                    (context_before_manifest host options) = (Returns tt, c3)
              | None => c3 = context_before_manifest host options
              end
            else c3 = context_before_manifest host options).
  { subst b3. unfold when at 1. destruct (flag options includeDependencies).
    - unfold bind, get, manifest_path. simpl workspaceRoot.
      destruct (rootPath host) as [root|].
      + destruct (String.eqb root ""); [eexists; split; reflexivity|].
        unfold when, nonempty.
        destruct (String.eqb (path_join host root "package.json") ""); simpl;
          [eexists; split; reflexivity|].
        destruct (gatherDependencies_frame (path_join host root "package.json")
                    (context_before_manifest host options) (Hfile _))
          as (c3 & E3 & _).
        exists c3. split; exact E3.
      + eexists; split; reflexivity.
    - eexists; split; reflexivity. }
  destruct H3 as (c3 & E3 & Hc3).
  exists c3. split; [|exact Hc3].
  unfold try_catch. unfold bind at 1. rewrite E1.
  unfold bind at 1. rewrite E2. rewrite E3. reflexivity.
Qed.

(** C8. [gatherContext] never throws, whatever the host does. When the
    host answers every call it returns a context that has the workspace root,
    leaves out every field whose option is absent or false, holds the
    open document under [activeFile] when asked for, holds under
    [workspaceStructure], when asked for, the directories listed under the
    root (the empty list when there is no root or the listing fails), and
    has neither [dependencies] nor [techStack] when the manifest cannot be
    read or is not JSON. *)
Theorem gatherContext_resilient {S : Type} (request : string)
    (options : option PlanOptions) (s : S) :
  (forall e s', PlanService.gatherContext host request options s <> (Throws e, s')) /\
  (host_settles host ->
   exists ctx,
     PlanService.gatherContext host request options s = (Returns ctx, s) /\
     workspaceRoot ctx = rootPath host /\
     (flag options includeActiveFile = false -> activeFile ctx = None) /\
     (flag options includeWorkspaceStructure = false -> workspaceStructure ctx = None) /\
     (flag options includeDependencies = false ->
      dependencies ctx = None /\ techStack ctx = None) /\
     (flag options includeActiveFile = true ->
      activeFile ctx = option_map document_snapshot (activeTextEditor host)) /\
     (flag options includeWorkspaceStructure = true ->
      workspaceStructure ctx = Some (listed_directories host)) /\
     (manifest_unusable host -> dependencies ctx = None /\ techStack ctx = None)).
Proof.
  split.
  - intros e s'. unfold PlanService.gatherContext.
    match goal with |- context [PlanService.gatherContext_body ?h ?o ?c] =>
      pose proof (gatherContext_body_never_throws o c) as Hbody;
      destruct (PlanService.gatherContext_body h o c) as [[u|err|] c']
    end; try discriminate.
    exfalso. apply (Hbody c' err). reflexivity.
  - intros Hsettles.
    destruct (gatherContext_run request options s Hsettles) as (ctx & Hrun & Hctx).
    exists ctx. split; [exact Hrun|].
    assert (Hframe : workspaceRoot ctx = rootPath host /\
              activeFile ctx = activeFile (context_before_manifest host options) /\
              workspaceStructure ctx =
                workspaceStructure (context_before_manifest host options) /\
              (flag options includeDependencies = false \/ manifest_unusable host ->
               ctx = context_before_manifest host options)).
    { destruct (flag options includeDependencies) eqn:Hdp.
      - unfold manifest_path in Hctx.
        destruct (rootPath host) as [root|] eqn:Hroot;
          [|subst ctx; simpl; rewrite Hroot; auto].
        destruct (String.eqb root ""); [subst ctx; simpl; rewrite Hroot; auto|].
        destruct (String.eqb (path_join host root "package.json") "");
          [subst ctx; simpl; rewrite Hroot; auto|].
        destruct Hsettles as [_ Hfile].
        destruct (gatherDependencies_frame (path_join host root "package.json")
                    (context_before_manifest host options) (Hfile _))
          as (c3 & E3 & R3 & A3 & W3 & U3).
        rewrite E3 in Hctx. inversion Hctx; subst c3.
        repeat split; try assumption.
        + rewrite R3. simpl. exact Hroot.
        + intros [Hf|Hun]; [discriminate|]. apply U3. apply Hun. exact Hroot.
      - subst ctx. auto. }
    destruct Hframe as (R & A & W & N).
    split. { exact R. }
    split. { intros Hf. rewrite A. simpl. rewrite Hf. reflexivity. }
    split. { intros Hf. rewrite W. simpl. rewrite Hf. reflexivity. }
    split. { intros Hf. rewrite N by (left; exact Hf). split; reflexivity. }
    split. { intros Hf. rewrite A. simpl. rewrite Hf. reflexivity. }
    split. { intros Hf. rewrite W. simpl. rewrite Hf. reflexivity. }
    intros Hun. rewrite N by (right; exact Hun). split; reflexivity.
Qed.

End ContextClaims.

Section OrchestratorClaims.
Context {num : Type} {JN : JsNumber num}.
Variable host : Host num.
Variable config : AIServiceConfig.

(** A plan that leaves the [try] block comes from the normaliser. *)
Lemma generatePlan_try_returns (request : string) (options : option PlanOptions)
    (tick tick' : nat) (plan : Plan num) :
  PlanService.generatePlan_try host config request options tick = (Returns plan, tick') ->
  exists response, PlanService.parsePlanResponse host request response tick = (Returns plan, tick').
Proof.
  unfold PlanService.generatePlan_try. unfold bind at 1.
  destruct (PlanService.gatherContext host request options tick) as [[ctx|e|] t0] eqn:Hctx;
    try discriminate.
  assert (t0 = tick) as ->.
  { unfold PlanService.gatherContext in Hctx.
    destruct (PlanService.gatherContext_body _ _ _) as [[u|e|] c]; inversion Hctx; reflexivity. }
  unfold bind at 1. rewrite AIService_generatePlan_unfold.
  destruct (chat_completions_create _ _ _ _) as [response|e|]; try discriminate.
  assert (Hfinal : forall raw,
    (parsedPlan <- PlanService.parsePlanResponse host request raw ;; ret parsedPlan) tick
      = (Returns plan, tick') ->
    exists response0,
      PlanService.parsePlanResponse host request response0 tick = (Returns plan, tick')).
  { intros raw. unfold bind, ret.
    destruct (PlanService.parsePlanResponse host request raw tick) as [[p|e|] t] eqn:Hp;
      try discriminate.
    intros H; inversion H; subst. eauto. }
  destruct (AIService.first_content response) as [text|]; try discriminate.
  destruct (String.eqb text ""); try discriminate.
  destruct (JSON_parse host text); apply Hfinal.
Qed.

(** The [catch] block returns the failed plan, at the cost of two ticks. *)
Lemma generatePlan_catch_returns (request : string) (error : thrown) (tick : nat) :
  PlanService.generatePlan_catch host request error tick =
  (Returns (failed_plan host request tick), S (S tick)).
Proof. reflexivity. Qed.

(** C2. For every task and options, [generatePlan] never throws; whenever
    its [try] block (context gathering, prompt building, completion,
    normalisation) throws, it returns a plan with a newly generated id, the
    task as given, no steps, the date read at that moment and status
    [failed]; and every plan it returns with status [failed] has no steps. *)
Theorem generatePlan_never_throws (request : string) (options : option PlanOptions)
    (tick : nat) :
  (forall e tick',
     PlanService.generatePlan host config request options tick <> (Throws e, tick')) /\
  (forall e tick',
     PlanService.generatePlan_try host config request options tick = (Throws e, tick') ->
     PlanService.generatePlan host config request options tick =
       (Returns {| id := fresh_id host tick'; task := request; steps := [];
                   createdAt := date_at host (S tick'); status := failed |},
        S (S tick'))) /\
  (forall plan tick',
     PlanService.generatePlan host config request options tick = (Returns plan, tick') ->
     status plan = failed -> steps plan = []).
Proof.
  unfold PlanService.generatePlan, try_catch.
  destruct (PlanService.generatePlan_try host config request options tick)
    as [[plan0|e0|] t0] eqn:Htry.
  - split; [discriminate|]. split; [discriminate|].
    intros plan tick' H Hfailed. inversion H; subst.
    apply generatePlan_try_returns in Htry. destruct Htry as [response Hp].
    apply parsePlanResponse_returns in Hp. destruct Hp as [st Hplan].
    subst plan. simpl in Hfailed. destruct (Nat.ltb 0 (length st)); discriminate.
  - rewrite generatePlan_catch_returns.
    split; [discriminate|]. split.
    + intros e tick' H. inversion H; subst. reflexivity.
    + intros plan tick' H _. inversion H; subst. reflexivity.
  - split; [discriminate|]. split; discriminate.
Qed.

(** The stages, one by one: a throw from the completion request, or from
    the normaliser on the reply, is a throw of the [try] block. *)
Lemma generatePlan_try_completion_throws (request : string)
    (options : option PlanOptions) (tick : nat) (ctx : Context num) (e : thrown) :
  PlanService.gatherContext host request options tick = (Returns ctx, tick) ->
  chat_completions_create host config AIService.SYSTEM_PROMPT
    (PlanService.buildPrompt request ctx) = Throws e ->
  PlanService.generatePlan_try host config request options tick =
    (Throws (AIErrorObject (AIService.handleError e)), tick).
Proof.
  intros Hctx Hreply. unfold PlanService.generatePlan_try.
  unfold bind at 1. rewrite Hctx. unfold bind at 1.
  rewrite AIService_generatePlan_unfold, Hreply. reflexivity.
Qed.

End OrchestratorClaims.

Section PromptClaims.
Context {num : Type} {JN : JsNumber num}.

(** The prompt is the prompt of the context without dependencies,
    followed by the dependency section when the map is there and truthy. *)
Lemma buildPrompt_split (request : string) (ctx : Context num) :
  PlanService.buildPrompt request ctx =
  PlanService.buildPrompt request (without_dependencies ctx) ++
  match dependencies ctx with
  | Some d =>
      match Manifest.dependencies d with
      | Some m =>
          if truthy m then
            "Dependencies: " ++ join ", " (firstn 10 (Object_keys m))
              ++ (if Nat.ltb 10 (length (Object_keys m)) then "..." else "") ++ blank_line
          else ""
      | None => ""
      end
  | None => ""
  end.
Proof.
  unfold PlanService.buildPrompt, without_dependencies. simpl.
  assert (Hnil : forall x : string, x = x ++ "").
  { induction x; simpl; congruence. }
  destruct (dependencies ctx) as [d|]; [|apply Hnil].
  destruct (Manifest.dependencies d) as [m|]; [|apply Hnil].
  destruct (truthy m); [reflexivity | apply Hnil].
Qed.

(** C7. For every context whose dependencies map is an object: with more
    than 10 entries the prompt ends with the line made of [Dependencies: ],
    the first 10 names joined by a comma and a blank, and [...]; with 10 or
    fewer it ends with the line made of [Dependencies: ] and all the names,
    with no [...] added. Only the names are listed. *)
Theorem buildPrompt_dependency_line (request : string) (ctx : Context num)
    (d : Manifest.t num) (props : list (string * JValue num)) :
  dependencies ctx = Some d ->
  Manifest.dependencies d = Some (JObj props) ->
  let names := map fst props in
  let before := PlanService.buildPrompt request (without_dependencies ctx) in
  (10 < length names ->
   PlanService.buildPrompt request ctx =
     before ++ "Dependencies: " ++ join ", " (firstn 10 names) ++ "..." ++ blank_line) /\
  (length names <= 10 ->
   PlanService.buildPrompt request ctx =
     before ++ "Dependencies: " ++ join ", " names ++ blank_line).
Proof.
  intros Hd Hm names before. rewrite buildPrompt_split, Hd, Hm. simpl truthy. cbv iota.
  simpl Object_keys. fold names. fold before. split; intros Hlen.
  - apply Nat.ltb_lt in Hlen. rewrite Hlen. reflexivity.
  - rewrite firstn_all2 by exact Hlen.
    destruct (Nat.ltb_spec 10 (length names)); [lia | reflexivity].
Qed.

End PromptClaims.

Section ManifestClaims.
Context {num : Type} {JN : JsNumber num}.
Variable host : Host num.

Lemma existsb_one (f : string -> bool) (k : string) : existsb f [k] = f k.
Proof. simpl. apply orb_false_r. Qed.

(** The chain of tests in [detectTechStack] is the first match over
    [stack_priority], a name matching when its merged value is truthy. *)
Lemma detectTechStack_object (props : list (string * JValue num)) :
  PlanService.detectTechStack (JObj props) =
  Returns (label_by_truthy_value (JObj props)).
Proof.
  unfold PlanService.detectTechStack, label_by_truthy_value, merged_value,
    stack_priority, first_match.
  simpl PlanService.get_member. simpl obind. simpl get_property.
  repeat rewrite existsb_one.
  simpl existsb. rewrite orb_false_r. reflexivity.
Qed.

(** C6 (as amended). For every parsed manifest other than [null], the
    label is the first match in the fixed priority order react, vue, angular
    or [@angular/core], svelte, next, node, express, nest, typescript,
    storybook, a name matching when its value in the merged map
    ([devDependencies] over [dependencies]) is truthy, and
    [JavaScript/TypeScript] when none matches; in particular a manifest in
    which react has a truthy merged value yields [React], whatever it holds
    for vue. *)
Theorem detectTechStack_first_truthy_match (pkgJson : JValue num) :
  pkgJson <> JNull ->
  PlanService.detectTechStack pkgJson = Returns (label_by_truthy_value pkgJson) /\
  (truthy_any (merged_value pkgJson "react") = true ->
   PlanService.detectTechStack pkgJson = Returns "React").
Proof.
  intros Hnull.
  assert (H : PlanService.detectTechStack pkgJson = Returns (label_by_truthy_value pkgJson)).
  { destruct pkgJson; try contradiction; try reflexivity. apply detectTechStack_object. }
  split; [exact H|].
  intros Hreact. rewrite H. unfold label_by_truthy_value, stack_priority, first_match.
  rewrite existsb_one, Hreact. reflexivity.
Qed.

Lemma assoc_in_keys (k : string) (props : list (string * JValue num)) :
  existsb (String.eqb k) (map fst props) =
  match assoc k props with Some _ => true | None => false end.
Proof.
  induction props as [|[k' v] rest IH]; [reflexivity|].
  simpl. destruct (String.eqb k k'); [reflexivity | exact IH].
Qed.

Lemma assoc_truthy (k : string) (props : list (string * JValue num)) :
  forallb (fun kv => truthy (snd kv)) props = true ->
  truthy_any (assoc k props) = match assoc k props with Some _ => true | None => false end.
Proof.
  induction props as [|[k' v] rest IH]; [reflexivity|].
  simpl. intros H. apply andb_prop in H. destruct H as [Hv Hrest].
  destruct (String.eqb k k'); [exact Hv | exact (IH Hrest)].
Qed.

Lemma first_match_ext (f g : string -> bool) (table : list (list string * string)) :
  (forall k, f k = g k) -> first_match f table = first_match g table.
Proof.
  intros Hfg. induction table as [|[names label] rest IH]; [reflexivity|].
  simpl. rewrite IH. replace (existsb f names) with (existsb g names); [reflexivity|].
  induction names as [|n names IHn]; [reflexivity|]. simpl. rewrite Hfg, IHn. reflexivity.
Qed.

(** On a manifest whose two maps hold only truthy values (version
    strings that are not empty), matching by truthy value is matching by
    key, and the label is the one the key set gives. *)
Lemma detectTechStack_by_key_set (props deps devDeps : list (string * JValue num)) :
  assoc "dependencies" props = Some (JObj deps) ->
  assoc "devDependencies" props = Some (JObj devDeps) ->
  forallb (fun kv => truthy (snd kv)) deps = true ->
  forallb (fun kv => truthy (snd kv)) devDeps = true ->
  PlanService.detectTechStack (JObj props) = Returns (label_by_key_set (JObj props)).
Proof.
  intros Hd Hv Td Tv. rewrite detectTechStack_object.
  unfold label_by_truthy_value, label_by_key_set. f_equal.
  apply first_match_ext. intros k.
  unfold merged_value, merged_keys, PlanService.spread_get. simpl get_property.
  rewrite Hd, Hv. simpl own_enumerable. simpl Object_keys.
  rewrite existsb_app, !assoc_in_keys.
  pose proof (assoc_truthy k deps Td) as Hkd.
  pose proof (assoc_truthy k devDeps Tv) as Hkv.
  destruct (assoc k devDeps) as [v|]; simpl in *.
  - rewrite Hkv. apply eq_sym, orb_true_r.
  - rewrite Hkd. rewrite orb_false_r. reflexivity.
Qed.

(** What the manifest block writes for a manifest that parses to an object. *)
Lemma gatherDependencies_object (p text : string) (props : list (string * JValue num))
    (c : Context num) :
  readFile host p = Returns text ->
  JSON_parse host text = Some (JObj props) ->
  PlanService.gatherDependencies host p c =
  (Returns tt,
   PlanService.set_techStack (label_by_truthy_value (JObj props))
     (PlanService.set_dependencies
        {| Manifest.dependencies := PlanService.or_empty (assoc "dependencies" props);
           Manifest.devDependencies := PlanService.or_empty (assoc "devDependencies" props) |}
        c)).
Proof.
  intros Hread Hparse. unfold PlanService.gatherDependencies, JSON_parse_call. unmonad.
  rewrite Hread, Hparse. simpl PlanService.get_member. cbv iota.
  rewrite detectTechStack_object. reflexivity.
Qed.

(** C10. A context whose [dependencies] field is present with an empty
    inner map still gets a [Dependencies: ] line with no name on it; and
    that is the context [gatherContext] produces from a manifest that
    parses to an object without a [dependencies] key, where the missing map
    defaults to the empty object. *)
Theorem buildPrompt_empty_dependencies_line (request : string) :
  (forall (ctx : Context num) (d : Manifest.t num),
     dependencies ctx = Some d ->
     Manifest.dependencies d = Some (JObj []) ->
     PlanService.buildPrompt request ctx =
       PlanService.buildPrompt request (without_dependencies ctx)
         ++ "Dependencies: " ++ blank_line) /\
  (forall (S : Type) (s : S) (options : option PlanOptions) (p text : string)
          (props : list (string * JValue num)),
     host_settles host ->
     flag options includeDependencies = true ->
     manifest_path host = Some p ->
     readFile host p = Returns text ->
     JSON_parse host text = Some (JObj props) ->
     assoc "dependencies" props = None ->
     exists ctx d,
       PlanService.gatherContext host request options s = (Returns ctx, s) /\
       dependencies ctx = Some d /\
       Manifest.dependencies d = Some (JObj []) /\
       PlanService.buildPrompt request ctx =
         PlanService.buildPrompt request (without_dependencies ctx)
           ++ "Dependencies: " ++ blank_line).
Proof.
  assert (Hline : forall (ctx : Context num) (d : Manifest.t num),
     dependencies ctx = Some d ->
     Manifest.dependencies d = Some (JObj []) ->
     PlanService.buildPrompt request ctx =
       PlanService.buildPrompt request (without_dependencies ctx)
         ++ "Dependencies: " ++ blank_line).
  { intros ctx d Hd Hm. rewrite buildPrompt_split, Hd, Hm. reflexivity. }
  split; [exact Hline|].
  intros S s options p text props Hsettles Hflag Hpath Hread Hparse Hnone.
  destruct (gatherContext_run host request options s Hsettles) as (ctx & Hrun & Hctx).
  rewrite Hflag, Hpath in Hctx.
  rewrite (gatherDependencies_object _ _ _ _ Hread Hparse) in Hctx.
  inversion Hctx as [Hc]. clear Hctx.
  exists ctx. subst ctx. eexists. split; [exact Hrun|].
  split; [reflexivity|]. rewrite Hnone.
  split; [reflexivity|].
  eapply Hline; reflexivity.
Qed.

End ManifestClaims.

(** * Worked examples *)

(** Status derivation: [{ steps: [] }] gives a [draft] plan. *)
Example normalize_no_steps_is_draft :
  PlanService.parsePlanResponse demo_host "t" (JObj [("steps", JArr [])]) 0 =
  (Returns {| id := "id0"; task := "t"; steps := []; createdAt := 1%Z; status := draft |}, 2).
Proof. reflexivity. Qed.

(** Order assignment: three empty objects give orders 0, 1, 2 and the
    descriptions [Step 1], [Step 2], [Step 3], in an [active] plan. *)
Example normalize_three_empty_steps :
  PlanService.parsePlanResponse demo_host "t" three_empty_steps 0 =
  (Returns {| id := "id0"; task := "t";
              steps := [ {| step_id := "id2"; description := "Step 1"; files := []; order := 0 |};
                         {| step_id := "id3"; description := "Step 2"; files := []; order := 1 |};
                         {| step_id := "id4"; description := "Step 3"; files := []; order := 2 |} ];
              createdAt := 1%Z; status := active |}, 5).
Proof. reflexivity. Qed.

(** A description that is an object with a [toString] entry of its own
    makes [String] throw, and the normaliser with it. *)
Example normalize_unconvertible_description_throws :
  PlanService.parsePlanResponse demo_host "t"
    (JObj [("steps", JArr [JObj [("description", JObj [("toString", JNull)])]])]) 0 =
  (Throws (TypeError "Cannot convert object to primitive value"), 3).
Proof. reflexivity. Qed.

(** An object with a [length] of its own under [steps] is walked like an
    array: [{ steps: { length: 2, 1: {} } }] gives one step, of order 1. *)
Example normalize_array_like_steps :
  PlanService.parsePlanResponse demo_host "t"
    (JObj [("steps", JObj [("length", JNum 2%Z); ("1", JObj [])])]) 0 =
  (Returns {| id := "id0"; task := "t";
              steps := [ {| step_id := "id2"; description := "Step 2"; files := []; order := 1 |} ];
              createdAt := 1%Z; status := active |}, 3).
Proof. reflexivity. Qed.

(** A [length] that is an object with a [toString] entry of its own
    cannot be compared with the loop counter. *)
Example normalize_unconvertible_length_throws :
  PlanService.parsePlanResponse demo_host "t"
    (JObj [("steps", JObj [("length", JObj [("toString", JNull)])])]) 0 =
  (Throws (TypeError "Cannot convert object to primitive value"), 2).
Proof. reflexivity. Qed.

(** The count on a reply mixing a string, an array, [null] and an object:
    two steps, for the array and the object. *)
Example normalize_mixed_steps_count :
  normalizable mixed_steps = true /\
  expected_steps mixed_steps = 2 /\
  exists plan tick',
    PlanService.parsePlanResponse demo_host "add a login page" mixed_steps 0 =
      (Returns plan, tick') /\
    task plan = "add a login page" /\
    length (steps plan) = 2.
Proof.
  split; [reflexivity|]. split; [reflexivity|].
  apply (parsePlanResponse_returns_on_normalizable demo_host). reflexivity.
Qed.

(** C1, witness: [{ steps: null }] makes the normaliser throw. *)
Lemma parsePlanResponse_throws_on_null_steps_witness :
  get_property null_steps "steps" = Some JNull /\
  expected_steps null_steps = 0 /\
  PlanService.parsePlanResponse demo_host "add a login page" null_steps 0 =
    (Throws (TypeError "Cannot read properties of null (reading 'length')"), 2).
Proof.
  split; [reflexivity|].
  destruct (parsePlanResponse_throws_on_null_steps demo_host
              "add a login page" null_steps 0 eq_refl) as (Hcount & Hthrow & _).
  split; [exact Hcount | exact Hthrow].
Defined.

(** End to end: when the model replies [{ steps: null }], the [TypeError]
    of the normaliser is caught by the orchestrator, and the user gets a
    [failed] plan for a reply that holds no steps. *)
Example generatePlan_null_steps_reply_fails :
  PlanService.generatePlan
    (demo_host_with None (reply_with (Some "<steps>")) (Some null_steps))
    demo_config "add a login page" all_options 0 =
  (Returns {| id := "id2"; task := "add a login page"; steps := [];
              createdAt := 3%Z; status := failed |}, 4).
Proof. reflexivity. Qed.

(** C5, witness: the three examples of the specification. [{ steps: [] }]
    gives a [draft] plan without steps; [{ steps: [{ description: "x" }] }]
    gives an [active] plan with one step of order 0; three empty objects
    give an [active] plan whose steps have the orders 0, 1, 2 and the
    descriptions [Step 1], [Step 2], [Step 3]. *)
Lemma parsePlanResponse_order_witness :
  (exists plan tick',
     PlanService.parsePlanResponse demo_host "t" no_steps 0 = (Returns plan, tick') /\
     steps plan = [] /\
     status plan = draft) /\
  (exists plan tick',
     PlanService.parsePlanResponse demo_host "t" one_described_step 0 =
       (Returns plan, tick') /\
     map order (steps plan) = [0] /\
     status plan = active) /\
  (exists plan tick',
     PlanService.parsePlanResponse demo_host "t" three_empty_steps 0 =
       (Returns plan, tick') /\
     map order (steps plan) = [0; 1; 2] /\
     map description (steps plan) = ["Step 1"; "Step 2"; "Step 3"] /\
     status plan = active).
Proof.
  split; [|split].
  - destruct (parsePlanResponse_order_description_status demo_host "t" no_steps 0)
      as [Hreturns Hplan].
    destruct (Hreturns eq_refl) as (plan & tick' & Hrun).
    exists plan, tick'. split; [exact Hrun|].
    destruct (Hplan plan tick' Hrun) as (_ & Hdraft & Harray).
    destruct (Harray [] eq_refl) as [Hlen _].
    assert (Hnil : steps plan = []).
    { destruct (steps plan); [reflexivity | discriminate Hlen]. }
    split; [exact Hnil | apply Hdraft; exact Hnil].
  - destruct (parsePlanResponse_order_description_status demo_host "t"
                one_described_step 0) as [Hreturns Hplan].
    destruct (Hreturns eq_refl) as (plan & tick' & Hrun).
    exists plan, tick'. split; [exact Hrun|].
    destruct (Hplan plan tick' Hrun) as (Hactive & _ & Harray).
    destruct (Harray _ eq_refl) as [Hlen Hnth].
    destruct (Hnth 0 _ eq_refl eq_refl) as (s0 & H0 & O0 & _).
    destruct (steps plan) as [|a [|b l]] eqn:Hsteps; try discriminate Hlen.
    inversion H0; subst a.
    split; [simpl; rewrite O0; reflexivity | apply Hactive; discriminate].
  - destruct (parsePlanResponse_order_description_status demo_host "t"
                three_empty_steps 0) as [Hreturns Hplan].
    destruct (Hreturns eq_refl) as (plan & tick' & Hrun).
    exists plan, tick'. split; [exact Hrun|].
    destruct (Hplan plan tick' Hrun) as (Hactive & _ & Harray).
    destruct (Harray _ eq_refl) as [Hlen Hnth].
    destruct (Hnth 0 _ eq_refl eq_refl) as (s0 & H0 & O0 & D0).
    destruct (Hnth 1 _ eq_refl eq_refl) as (s1 & H1 & O1 & D1).
    destruct (Hnth 2 _ eq_refl eq_refl) as (s2 & H2 & O2 & D2).
    destruct (steps plan) as [|a [|b [|c [|d l]]]] eqn:Hsteps; try discriminate Hlen.
    inversion H0; subst a. inversion H1; subst b. inversion H2; subst c.
    split; [|split].
    + simpl. rewrite O0, O1, O2. reflexivity.
    + simpl. rewrite (D0 eq_refl), (D1 eq_refl), (D2 eq_refl). reflexivity.
    + apply Hactive. discriminate.
Defined.

(** C9, witness: the empty array at index 1 of [mixed_steps]. *)
Lemma parsePlanResponse_array_element_witness :
  exists plan tick',
    PlanService.parsePlanResponse demo_host "t" mixed_steps 0 = (Returns plan, tick') /\
    exists step,
      nth_error (steps plan) 0 = Some step /\
      order step = 1 /\
      description step = "Step 2" /\
      files step = [].
Proof.
  eexists. eexists. split; [reflexivity|].
  apply (parsePlanResponse_array_element_makes_step demo_host "t" mixed_steps 0 4 _
           [JStr "x"; JArr []; JNull;
            JObj [("description", JNum 5%Z); ("files", JArr [JStr "a.ts"])]] [] 1);
    reflexivity.
Defined.


(** C2, witness: the plan returned when the endpoint answers 429. *)
Lemma generatePlan_rate_limit_witness :
  PlanService.generatePlan demo_host demo_config "add a login page" all_options 0 =
  (Returns {| id := "id0"; task := "add a login page"; steps := [];
              createdAt := 1%Z; status := failed |}, 2).
Proof.
  apply (proj1 (proj2 (generatePlan_never_throws demo_host demo_config
                         "add a login page" all_options 0))
           (AIErrorObject (AIService.handleError
              (APIError (Some 429) "Too Many Requests" None))) 0).
  reflexivity.
Defined.

(** C3, witness: a reply whose only choice has [null] content. *)
Lemma AIService_no_content_witness :
  let host := demo_host_with None (reply_with None) None in
  chat_completions_create host demo_config AIService.SYSTEM_PROMPT "Task: t"
    = Returns (reply_with None) /\
  AIService.no_content (AIService.first_content (reply_with None)) = true /\
  exists e,
    AIService.generatePlan host demo_config "Task: t" tt = (Throws (AIErrorObject e), tt) /\
    type e = unknown /\
    original e = Some (AIErrorObject
      (AIService.createError "No response content received from AI service")) /\
    message e = "Unexpected error: [object Object]" /\
    includes "No response content received from AI service" (message e) = false.
Proof.
  split; [reflexivity|]. split; [reflexivity|].
  apply (AIService_no_content_message_lost
           (demo_host_with None (reply_with None) None) demo_config
           "Task: t" (reply_with None) tt); reflexivity.
Defined.

(** C4, witness: a reply whose text is not JSON comes back wrapped. *)
Lemma AIService_generatePlan_reply_witness :
  let host := demo_host_with None (reply_with (Some "Sure, here is a plan")) None in
  chat_completions_create host demo_config AIService.SYSTEM_PROMPT "Task: t"
    = Returns (reply_with (Some "Sure, here is a plan")) /\
  AIService.generatePlan host demo_config "Task: t" tt =
    (Returns (JObj [("raw", JStr "Sure, here is a plan")]), tt).
Proof.
  split; [reflexivity|].
  apply (proj1 (proj2 (AIService_generatePlan_reply
           (demo_host_with None (reply_with (Some "Sure, here is a plan")) None)
           demo_config "Task: t" (reply_with (Some "Sure, here is a plan")) tt eq_refl)));
    [reflexivity | discriminate | reflexivity].
Defined.

(** A reply whose text parses is returned as parsed. *)
Example completion_parsed_reply :
  AIService.generatePlan
    (demo_host_with None (reply_with (Some "<steps>")) (Some three_empty_steps))
    demo_config "Task: t" tt =
  (Returns three_empty_steps, tt).
Proof. reflexivity. Qed.

(** Tech-stack priority: react and vue together give [React]. *)
Example detectTechStack_react_and_vue :
  PlanService.detectTechStack react_and_vue = Returns "React".
Proof. reflexivity. Qed.

(** C6, counterexample: react is in the merged key set, so the key set
    gives [React], but its version is the empty string, which is falsy, and
    the code answers [Vue.js]. *)
Lemma detectTechStack_empty_version_not_by_key_set :
  label_by_key_set react_without_version = "React" /\
  PlanService.detectTechStack react_without_version = Returns "Vue.js" /\
  PlanService.detectTechStack react_without_version <>
    Returns (label_by_key_set react_without_version).
Proof.
  split; [reflexivity|]. split; [reflexivity|]. discriminate.
Qed.

(** C6, witness. *)
Lemma detectTechStack_first_truthy_match_witness :
  react_and_vue <> JNull /\
  PlanService.detectTechStack react_and_vue = Returns (label_by_truthy_value react_and_vue) /\
  (truthy_any (merged_value react_and_vue "react") = true ->
   PlanService.detectTechStack react_and_vue = Returns "React").
Proof.
  split; [discriminate|].
  apply (detectTechStack_first_truthy_match react_and_vue). discriminate.
Defined.

(** Dependency truncation: eleven names give the first ten and [...]. *)
Example buildPrompt_eleven_dependencies :
  PlanService.buildPrompt "t" (context_with eleven_dependencies) =
  "Task: t" ++ blank_line ++ "Dependencies: a, b, c, d, e, f, g, h, i, j..." ++ blank_line.
Proof. reflexivity. Qed.

(** C7, witness. *)
Lemma buildPrompt_dependency_line_witness :
  dependencies (context_with eleven_dependencies) =
    Some {| Manifest.dependencies := Some (JObj eleven_dependencies);
            Manifest.devDependencies := Some (JObj []) |} /\
  10 < length (map fst eleven_dependencies) /\
  PlanService.buildPrompt "t" (context_with eleven_dependencies) =
    PlanService.buildPrompt "t" (without_dependencies (context_with eleven_dependencies))
      ++ "Dependencies: " ++ join ", " (firstn 10 (map fst eleven_dependencies))
      ++ "..." ++ blank_line.
Proof.
  split; [reflexivity|]. split; [simpl; lia|].
  apply (proj1 (buildPrompt_dependency_line "t" (context_with eleven_dependencies)
                  _ eleven_dependencies eq_refl eq_refl)).
  simpl; lia.
Defined.

(** C8, witness: the manifest of [demo_host] cannot be read; the
    directories are still listed. *)
Lemma gatherContext_resilient_witness :
  host_settles demo_host /\
  manifest_unusable demo_host /\
  exists ctx,
    PlanService.gatherContext demo_host "add a login page" all_options tt = (Returns ctx, tt) /\
    workspaceStructure ctx = Some ["src"; "docs"] /\
    dependencies ctx = None /\
    techStack ctx = None.
Proof.
  assert (Hsettles : host_settles demo_host).
  { split; intros p; discriminate. }
  assert (Hunusable : manifest_unusable demo_host).
  { intros root _. left. eexists. reflexivity. }
  split; [exact Hsettles|]. split; [exact Hunusable|].
  destruct (proj2 (gatherContext_resilient demo_host "add a login page" all_options tt)
              Hsettles) as (ctx & Hrun & _ & _ & _ & _ & _ & Hws & Hdeps).
  exists ctx. split; [exact Hrun|]. split; [exact (Hws eq_refl)|]. exact (Hdeps Hunusable).
Defined.

(** C10, witness: a manifest with a name and a version only. *)
Lemma buildPrompt_empty_dependencies_witness :
  let host := demo_host_with (Some manifest_without_dependencies) (reply_with None) None in
  exists ctx d,
    PlanService.gatherContext host "t" all_options tt = (Returns ctx, tt) /\
    dependencies ctx = Some d /\
    Manifest.dependencies d = Some (JObj []) /\
    PlanService.buildPrompt "t" ctx =
      PlanService.buildPrompt "t" (without_dependencies ctx) ++ "Dependencies: " ++ blank_line.
Proof.
  apply (proj2 (buildPrompt_empty_dependencies_line
                  (demo_host_with (Some manifest_without_dependencies) (reply_with None) None)
                  "t")
           unit tt all_options "/work/package.json" "<package.json>"
           [("name", JStr "app"); ("version", JStr "1.0.0")]);
    try reflexivity.
  split; intros p; discriminate.
Defined.

(** The prompt built in that case. *)
Example buildPrompt_manifest_without_dependencies :
  PlanService.buildPrompt "t"
    {| workspaceRoot := Some "/work"; activeFile := None; workspaceStructure := None;
       techStack := Some "JavaScript/TypeScript";
       dependencies := Some {| Manifest.dependencies := Some (JObj ([] : list (string * JValue Z)));
                               Manifest.devDependencies := Some (JObj []) |} |} =
  "Task: t" ++ blank_line ++ "Tech Stack: JavaScript/TypeScript" ++ blank_line
    ++ "Dependencies: " ++ blank_line.
Proof. reflexivity. Qed.

(** * Further properties of the code *)

(** ** ConfigService *)

Lemma trimEnd_empty (s : string) : trimEnd s = "" <-> all_white s = true.
Proof.
  induction s as [|c rest IH]; simpl; [tauto|].
  destruct (trimEnd rest) as [|k kept] eqn:Hrest.
  - destruct (is_white c); simpl.
    + split; intros _; [apply IH; reflexivity | reflexivity].
    + split; discriminate.
  - split; [discriminate|]. intros H. apply andb_prop in H. destruct H as [_ H].
    apply IH in H. discriminate.
Qed.

Lemma trimStart_white (s : string) : all_white s = true -> trimStart s = "".
Proof.
  induction s as [|c rest IH]; simpl; [reflexivity|].
  intros H. apply andb_prop in H. destruct H as [Hc Hrest]. rewrite Hc. auto.
Qed.

Lemma trimStart_all_white (s : string) : all_white (trimStart s) = all_white s.
Proof.
  induction s as [|c rest IH]; simpl; [reflexivity|].
  destruct (is_white c) eqn:Hc; simpl; [exact IH | rewrite Hc; reflexivity].
Qed.

Lemma trim_empty (s : string) : trim s = "" <-> all_white s = true.
Proof. unfold trim. rewrite trimEnd_empty, trimStart_all_white. tauto. Qed.

Lemma trimStart_starts (s : string) : starts_white (trimStart s) = false.
Proof.
  induction s as [|c rest IH]; simpl; [reflexivity|].
  destruct (is_white c) eqn:Hc; [exact IH | simpl; exact Hc].
Qed.

Lemma trimEnd_starts (s : string) :
  starts_white s = false -> starts_white (trimEnd s) = false.
Proof.
  destruct s as [|c rest]; simpl; [reflexivity|]. intros Hc.
  destruct (trimEnd rest); [rewrite Hc|]; simpl; exact Hc.
Qed.

Lemma trimEnd_ends (s : string) : ends_white (trimEnd s) = false.
Proof.
  induction s as [|c rest IH]; simpl; [reflexivity|].
  destruct (trimEnd rest) as [|k kept] eqn:Hrest.
  - destruct (is_white c) eqn:Hc; simpl; [reflexivity | exact Hc].
  - simpl. simpl in IH. exact IH.
Qed.

(** What [trim] returns neither starts nor ends with white space. *)
Lemma trim_trimmed (s : string) :
  starts_white (trim s) = false /\ ends_white (trim s) = false.
Proof.
  unfold trim. split; [apply trimEnd_starts, trimStart_starts | apply trimEnd_ends].
Qed.

Lemma nonblank_false (s : string) : nonblank s = false <-> s = "".
Proof.
  unfold nonblank. destruct (String.eqb_spec s ""); simpl; split; congruence.
Qed.

Lemma or_else_empty (a : option string) (b : string) :
  ConfigService.or_else a b = "" <-> unset a = true /\ b = "".
Proof.
  unfold ConfigService.or_else, unset. destruct a as [s|].
  - destruct (nonblank s) eqn:Hs; simpl.
    + split; [|intros [H _]; discriminate].
      intros H. subst s. discriminate.
    + tauto.
  - tauto.
Qed.

(** X1. A key set in the settings that is not all white space wins over
    the environment, whatever the two variables hold, and is returned
    trimmed: the key neither starts nor ends with white space. *)
Theorem apiKey_setting_wins_trimmed (config : Settings) (env : Env) (key : string) :
  setting_apiKey config = Some key ->
  all_white key = false ->
  ConfigService.apiKey config env = trim key /\
  ConfigService.apiKey config env <> "" /\
  starts_white (ConfigService.apiKey config env) = false /\
  ends_white (ConfigService.apiKey config env) = false.
Proof.
  intros Hkey Hwhite. unfold ConfigService.apiKey. rewrite Hkey. simpl ConfigService.get.
  assert (Hne : trim key <> "").
  { intros H. apply trim_empty in H. congruence. }
  assert (Hnb : nonblank key = true).
  { destruct (nonblank key) eqn:H; [reflexivity|].
    apply nonblank_false in H. subst key. discriminate. }
  rewrite Hnb.
  destruct (nonblank (trim key)) eqn:Ht.
  - pose proof (trim_trimmed key) as [Hs He]. auto.
  - apply nonblank_false in Ht. contradiction.
Qed.

(** X2. No key is configured exactly when the setting is absent or all
    white space and both environment variables are unset or empty. The
    variables are not trimmed: one holding only blanks is returned as the key. *)
Theorem apiKey_missing_iff (config : Settings) (env : Env) :
  ConfigService.apiKey config env = "" <->
  all_white (ConfigService.get (setting_apiKey config) "") = true /\
  unset (ANTHROPIC_API_KEY env) = true /\
  unset (OPENAI_API_KEY env) = true.
Proof.
  unfold ConfigService.apiKey.
  set (key := ConfigService.get (setting_apiKey config) "").
  assert (Htrim : (if nonblank key then trim key else "") = trim key).
  { destruct (nonblank key) eqn:H; [reflexivity|].
    apply nonblank_false in H. rewrite H. reflexivity. }
  rewrite Htrim.
  destruct (nonblank (trim key)) eqn:Ht.
  - split.
    + intros H. rewrite H in Ht. discriminate.
    + intros [H _]. apply trim_empty in H. rewrite H in Ht. discriminate.
  - apply nonblank_false in Ht. rewrite or_else_empty, or_else_empty.
    rewrite <- trim_empty. tauto.
Qed.

(** X3. The configuration handed to the AI service always names a model
    and a token budget other than zero: an empty or missing model and a
    missing or zero budget are replaced by the defaults. Any other setting
    is handed through as it is, so a negative budget in the settings is a
    negative budget in the configuration. *)
Theorem aiConfig_model_and_budget (config : Settings) (env : Env) :
  model (ConfigService.aiConfig config env) <> "" /\
  maxTokens (ConfigService.aiConfig config env) <> 0%Z /\
  (setting_model config = None \/ setting_model config = Some "" ->
   model (ConfigService.aiConfig config env) = "claude-3-5-sonnet-20241022") /\
  (forall name, setting_model config = Some name -> name <> "" ->
   model (ConfigService.aiConfig config env) = name) /\
  (setting_maxTokens config = None \/ setting_maxTokens config = Some 0%Z ->
   maxTokens (ConfigService.aiConfig config env) = 4096%Z) /\
  (forall n, setting_maxTokens config = Some n -> n <> 0%Z ->
   maxTokens (ConfigService.aiConfig config env) = n) /\
  (forall n, setting_maxTokens config = Some n -> (n < 0)%Z ->
   (maxTokens (ConfigService.aiConfig config env) < 0)%Z).
Proof.
  assert (Hkept : forall n, setting_maxTokens config = Some n -> n <> 0%Z ->
            maxTokens (ConfigService.aiConfig config env) = n).
  { intros n Hn Hnz. unfold ConfigService.aiConfig. simpl.
    unfold ConfigService.maxTokens, ConfigService.get. rewrite Hn.
    destruct (Z.eqb_spec n 0); [contradiction | reflexivity]. }
  split; [|split; [|split; [|split; [|split; [|split]]]]].
  - unfold ConfigService.aiConfig. simpl.
    unfold ConfigService.model, ConfigService.or_else, ConfigService.get.
    destruct (setting_model config) as [m|]; [|discriminate].
    destruct (nonblank m) eqn:Hm; [|discriminate].
    intros H. subst m. discriminate.
  - unfold ConfigService.aiConfig. simpl.
    unfold ConfigService.maxTokens, ConfigService.get.
    destruct (setting_maxTokens config) as [n|].
    + destruct (Z.eqb_spec n 0); [discriminate | assumption].
    + discriminate.
  - unfold ConfigService.aiConfig. simpl.
    unfold ConfigService.model, ConfigService.or_else, ConfigService.get.
    intros [H|H]; rewrite H; reflexivity.
  - intros name Hname Hne. unfold ConfigService.aiConfig. simpl.
    unfold ConfigService.model, ConfigService.or_else, ConfigService.get.
    rewrite Hname. destruct (nonblank name) eqn:Hb; [reflexivity|].
    apply nonblank_false in Hb. contradiction.
  - unfold ConfigService.aiConfig. simpl.
    unfold ConfigService.maxTokens, ConfigService.get.
    intros [H|H]; rewrite H; reflexivity.
  - exact Hkept.
  - intros n Hn Hneg. rewrite (Hkept n Hn); lia.
Qed.

(** A budget of [-5] in the settings is the budget of the configuration. *)
Example aiConfig_negative_budget :
  maxTokens (ConfigService.aiConfig
    {| setting_apiKey := None; setting_endpoint := None;
       setting_model := None; setting_maxTokens := Some (-5)%Z |} demo_env) = (-5)%Z.
Proof. reflexivity. Qed.

Section CheckApiKey.
Context {num : Type}.
Variable window : Window num.

(** X4. [checkApiKey] with a key configured answers [true] without a
    call on the editor. Without a key it warns and answers [false], and it
    opens the settings exactly when the item picked is [Open Settings]. *)
Theorem checkApiKey_behaviour (config : Settings) (env : Env) (log : list (Event num)) :
  let text :=
    "CodeCompass: API key not configured. Set it in settings to use AI features." in
  let opened := Executed "workbench.action.openSettings" "codecompass.apiKey" in
  (ConfigService.apiKey config env <> "" ->
   ConfigService.checkApiKey config env window log = (Returns true, log)) /\
  (ConfigService.apiKey config env = "" ->
   forall action,
     showWarningMessage window text ["Open Settings"; "Dismiss"] = Returns action ->
     (action <> Some "Open Settings" ->
      ConfigService.checkApiKey config env window log =
        (Returns false, (log ++ [Warned text])%list)) /\
     (action = Some "Open Settings" ->
      executeCommand window "workbench.action.openSettings" "codecompass.apiKey"
        = Returns tt ->
      ConfigService.checkApiKey config env window log =
        (Returns false, (log ++ [Warned text] ++ [opened])%list))).
Proof.
  intros text opened. unfold ConfigService.checkApiKey. split.
  - intros Hkey. destruct (nonblank (ConfigService.apiKey config env)) eqn:Hnb.
    + reflexivity.
    + apply nonblank_false in Hnb. contradiction.
  - intros Hkey action Hshow. rewrite Hkey. simpl negb. cbv iota.
    unfold emit, ConfigService.openSettings. unmonad. fold text. rewrite Hshow.
    split.
    + intros Hpick. destruct action as [picked|]; [|reflexivity].
      destruct (String.eqb_spec picked "Open Settings"); [congruence | reflexivity].
    + intros Hpick Hcmd. subst action. simpl. rewrite Hcmd.
      rewrite <- app_assoc. reflexivity.
Qed.

End CheckApiKey.

(** ** AIService and PlanService *)

Section PipelineFacts.
Context {num : Type} {JN : JsNumber num}.
Variable host : Host num.
Variable config : AIServiceConfig.


(** X6. The kinds of [handleError] are exact: [authentication],
    [rate_limit] and [bad_request] are given to provider errors of status
    401, 429 and 400 and to nothing else, and [network] to a [TypeError]
    whose message mentions [fetch] and to nothing else; in particular a
    provider error without a status is [unknown]. *)
Theorem handleError_kinds_exact (error : thrown) :
  (type (AIService.handleError error) = authentication <->
   exists m c, error = APIError (Some 401) m c) /\
  (type (AIService.handleError error) = rate_limit <->
   exists m c, error = APIError (Some 429) m c) /\
  (type (AIService.handleError error) = bad_request <->
   exists m c, error = APIError (Some 400) m c) /\
  (type (AIService.handleError error) = network <->
   exists m, error = TypeError m /\ includes "fetch" m = true).
Proof.
  assert (Hcase : forall k k' : ErrorKind, k <> k' -> forall P : Prop,
            (P -> False) -> (k = k' <-> P)).
  { intros k k' Hne P HP. split; [intros H; contradiction | intros H; destruct (HP H)]. }
  assert (Hyes : forall (k : ErrorKind) (P : Prop), P -> (k = k <-> P)).
  { intros k P HP. split; [intros _; exact HP | reflexivity]. }
  destruct error as [status m c|m|m|e|text]; simpl.
  - unfold AIService.status_is.
    destruct status as [n|]; simpl.
    + destruct (Nat.eqb_spec n 401) as [->|H401]; simpl;
        [|destruct (Nat.eqb_spec n 429) as [->|H429]; simpl;
          [|destruct (Nat.eqb_spec n 400) as [->|H400]; simpl]].
      all: split; [|split; [|split]].
      all: first [ apply Hyes; eexists; eexists; reflexivity
                 | apply Hcase; [discriminate|];
                   intros Hex; decompose [ex and] Hex;
                   first [ discriminate
                         | match goal with
                           | H : APIError _ _ _ = APIError _ _ _ |- _ =>
                               inversion H; congruence
                           end ] ].
    + split; [|split; [|split]]; (apply Hcase; [discriminate|]);
        intros Hex; decompose [ex and] Hex; discriminate.
  - destruct (includes "fetch" m) eqn:Hf; simpl.
    + split; [|split; [|split]].
      4: { apply Hyes. eexists. split; [reflexivity | exact Hf]. }
      all: (apply Hcase; [discriminate|]);
        intros Hex; decompose [ex and] Hex; discriminate.
    + split; [|split; [|split]]; (apply Hcase; [discriminate|]);
        intros Hex; decompose [ex and] Hex;
        first [ discriminate
              | match goal with
                | H : TypeError _ = TypeError _ |- _ => inversion H; congruence
                end ].
  - split; [|split; [|split]]; (apply Hcase; [discriminate|]);
      intros Hex; decompose [ex and] Hex; discriminate.
  - split; [|split; [|split]]; (apply Hcase; [discriminate|]);
      intros Hex; decompose [ex and] Hex; discriminate.
  - split; [|split; [|split]]; (apply Hcase; [discriminate|]);
      intros Hex; decompose [ex and] Hex; discriminate.
Qed.

(** The loop again, for identifiers and order: the new steps take their
    identifiers from consecutive readings of the id source, and their
    orders grow strictly, from the start index on. *)
Lemma parse_steps_ids_orders (elems : list (JsAny num)) :
  forall (i : nat) (acc : list (PlanStep num)) (tick tick' : nat) (steps : list (PlanStep num)),
  PlanService.parse_steps host i elems acc tick = (Returns steps, tick') ->
  exists news,
    steps = (acc ++ news)%list /\
    map step_id news = map (fresh_id host) (seq tick (length news)) /\
    StronglySorted lt (map order news) /\
    Forall (fun s => i <= order s < i + length elems) news.
Proof.
  induction elems as [|e rest IH]; intros i acc tick tick' steps H.
  - simpl in H. unmonad. inversion H; subst.
    exists []. rewrite app_nil_r. repeat split; constructor.
  - simpl in H.
    destruct (PlanService.object_shaped e) eqn:Hshape.
    + destruct e as [v0|]; [|discriminate].
      unfold bind at 1 in H. unfold bind at 1 in H.
      destruct (PlanService.make_step host i v0 tick) as [[s | err |] t1] eqn:Hmk;
        try discriminate.
      apply make_step_returns in Hmk. destruct Hmk as (Ht1 & Hid & Hord & _). subst t1.
      unfold ret at 1 in H.
      apply IH in H. destruct H as (news & Hsteps & Hids & Hsorted & Hrange).
      exists (s :: news). split; [|split; [|split]].
      * rewrite Hsteps, <- app_assoc. reflexivity.
      * simpl. rewrite Hid, Hids. reflexivity.
      * simpl. constructor; [exact Hsorted|].
        rewrite Forall_map. eapply Forall_impl; [|exact Hrange].
        simpl. intros a Ha. lia.
      * constructor; [simpl; lia|].
        eapply Forall_impl; [|exact Hrange]. simpl. intros a Ha. lia.
    + unfold bind at 1 in H. unfold ret at 1 in H.
      apply IH in H. destruct H as (news & Hsteps & Hids & Hsorted & Hrange).
      exists news. repeat split; try assumption.
      eapply Forall_impl; [|exact Hrange]. simpl. intros a Ha. lia.
Qed.

(** The steps of a returned plan come from one run of the loop, started
    two ticks after the call. *)
Lemma parsePlanResponse_steps (request : string) (raw : JValue num) (tick tick' : nat)
    (plan : Plan num) :
  PlanService.parsePlanResponse host request raw tick = (Returns plan, tick') ->
  id plan = fresh_id host tick /\
  map step_id (steps plan) =
    map (fresh_id host) (seq (S (S tick)) (length (steps plan))) /\
  StronglySorted lt (map order (steps plan)).
Proof.
  rewrite parsePlanResponse_unfold.
  destruct (get_property raw "steps") as [d|].
  - destruct (PlanService.visited d) as [elems|e|]; try discriminate.
    destruct (PlanService.parse_steps host 0 elems [] (S (S tick))) as [[st|e|] t] eqn:Hloop;
      try discriminate.
    intros H; inversion H; subst; clear H. simpl.
    apply parse_steps_ids_orders in Hloop.
    destruct Hloop as (news & Hst & Hids & Hsorted & _). simpl in Hst. subst st.
    auto.
  - intros H; inversion H; subst. simpl. repeat split; constructor.
Qed.

(** X7. In every plan the normaliser returns, the [order] fields grow
    strictly along the steps: no two steps share an order, whatever the
    reply held, and the steps stand in the order of the reply. *)
Theorem parsePlanResponse_orders_increase (request : string) (raw : JValue num)
    (tick tick' : nat) (plan : Plan num) :
  PlanService.parsePlanResponse host request raw tick = (Returns plan, tick') ->
  StronglySorted lt (map order (steps plan)).
Proof. intros H. apply parsePlanResponse_steps in H. tauto. Qed.

(** X8. When the id source never repeats itself, the identifiers in a
    returned plan are pairwise distinct: the plan's own and those of all
    its steps. *)
Theorem parsePlanResponse_ids_distinct (request : string) (raw : JValue num)
    (tick tick' : nat) (plan : Plan num) :
  (forall a b, fresh_id host a = fresh_id host b -> a = b) ->
  PlanService.parsePlanResponse host request raw tick = (Returns plan, tick') ->
  NoDup (id plan :: map step_id (steps plan)).
Proof.
  intros Hinj H. apply parsePlanResponse_steps in H. destruct H as (Hid & Hids & _).
  rewrite Hid, Hids.
  change (fresh_id host tick :: map (fresh_id host) (seq (S (S tick)) (length (steps plan))))
    with (map (fresh_id host) (tick :: seq (S (S tick)) (length (steps plan)))).
  apply NoDup_map_NoDup_ForallPairs; [intros a b _ _; apply Hinj|].
  constructor; [|apply seq_NoDup].
  rewrite in_seq. lia.
Qed.

End PipelineFacts.

Section PipelineComposition.
Context {num : Type} {JN : JsNumber num}.
Variable host : Host num.
Variable config : AIServiceConfig.

(** X9. A reply that is text but not JSON does not fail the request: the
    client wraps it as [{ raw: text }], the normaliser finds no [steps]
    in it, and [generatePlan] returns a [draft] plan without steps. *)
Theorem generatePlan_unparsed_reply_is_draft (request : string)
    (options : option PlanOptions) (tick : nat) (response : ChatCompletion)
    (text : string) :
  host_settles host ->
  (forall prompt,
     chat_completions_create host config AIService.SYSTEM_PROMPT prompt = Returns response) ->
  AIService.first_content response = Some text ->
  text <> "" ->
  JSON_parse host text = None ->
  PlanService.generatePlan host config request options tick =
    (Returns {| id := fresh_id host tick; task := request; steps := [];
                createdAt := date_at host (S tick); status := draft |},
     S (S tick)).
Proof.
  intros Hsettles Hreply Hcontent Hne Hparse.
  destruct (gatherContext_run host request options tick Hsettles) as (ctx & Hctx & _).
  unfold PlanService.generatePlan, try_catch, PlanService.generatePlan_try.
  unfold bind at 1. rewrite Hctx.
  unfold bind at 1. rewrite AIService_generatePlan_unfold, Hreply, Hcontent.
  destruct (String.eqb_spec text ""); [contradiction|]. rewrite Hparse.
  unfold bind at 1. rewrite parsePlanResponse_unfold. reflexivity.
Qed.

Lemma detectTechStack_label (pkgJson : JValue num) (stack : string) :
  PlanService.detectTechStack pkgJson = Returns stack -> In stack stack_labels.
Proof.
  unfold PlanService.detectTechStack, PlanService.get_member.
  destruct pkgJson; simpl obind; try discriminate.
  all: intros H; inversion H as [Hs]; clear H Hs.
  all: repeat match goal with
         | |- context [if ?b then _ else _] => destruct b
         end.
  all: unfold stack_labels; simpl; tauto.
Qed.

(** The manifest block either leaves the context as it is or writes both
    [dependencies] and [techStack]. *)
Lemma gatherDependencies_cases (p : string) (c : Context num) :
  readFile host p <> Diverges ->
  exists c',
    PlanService.gatherDependencies host p c = (Returns tt, c') /\
    (c' = c \/
     exists d stack,
       In stack stack_labels /\
       c' = PlanService.set_techStack stack (PlanService.set_dependencies d c)).
Proof.
  intros Hfile. unfold PlanService.gatherDependencies, JSON_parse_call. unmonad.
  destruct (readFile host p) as [text|e|] eqn:Hread; [| |contradiction].
  - destruct (JSON_parse host text) as [pkgJson|] eqn:Hparse.
    + pose proof (detectTechStack_settles pkgJson) as Hsettle.
      pose proof (detectTechStack_label pkgJson) as Hlabel.
      destruct pkgJson; simpl PlanService.get_member; cbv iota;
        try (eexists; split; [reflexivity | left; reflexivity]).
      all: destruct (PlanService.detectTechStack _) as [stack|e|] eqn:Hstack;
        [ | exfalso; revert Hstack; unfold PlanService.detectTechStack; simpl; discriminate
          | contradiction ].
      all: eexists; split; [reflexivity|]; right; eexists _, _; split;
        [apply Hlabel; reflexivity | reflexivity].
    + eexists; split; [reflexivity | left; reflexivity].
  - eexists; split; [reflexivity | left; reflexivity].
Qed.

(** X10. In every context [gatherContext] returns, [dependencies] and
    [techStack] are present together or absent together, and a tech stack,
    when present, is one of the eleven labels, none of them empty: the
    prompt has a [Tech Stack] line exactly when the manifest was read. *)
Theorem gatherContext_stack_with_dependencies {S : Type} (request : string)
    (options : option PlanOptions) (s s' : S) (ctx : Context num) :
  host_settles host ->
  PlanService.gatherContext host request options s = (Returns ctx, s') ->
  (dependencies ctx = None <-> techStack ctx = None) /\
  (forall label, techStack ctx = Some label ->
   In label stack_labels /\ nonempty (Some label) = true).
Proof.
  intros Hsettles Hrun.
  destruct (gatherContext_run host request options s Hsettles) as (ctx' & Hrun' & Hctx).
  rewrite Hrun' in Hrun. inversion Hrun; subst ctx' s'. clear Hrun.
  assert (Hlabels : forall label, In label stack_labels -> nonempty (Some label) = true).
  { unfold stack_labels, stack_priority. simpl. intros label H.
    repeat (destruct H as [<-|H]; [reflexivity|]). destruct H. }
  assert (Hcases : ctx = context_before_manifest host options \/
            exists d stack, In stack stack_labels /\
              ctx = PlanService.set_techStack stack
                      (PlanService.set_dependencies d (context_before_manifest host options))).
  { destruct (flag options includeDependencies); [|left; exact Hctx].
    destruct (manifest_path host) as [p|]; [|left; exact Hctx].
    destruct Hsettles as [_ Hfile].
    destruct (gatherDependencies_cases p (context_before_manifest host options) (Hfile p))
      as (c' & Hc' & Hor).
    rewrite Hc' in Hctx. inversion Hctx; subst c'. exact Hor. }
  destruct Hcases as [->|(d & stack & Hin & ->)]; simpl.
  - split; [tauto|]. discriminate.
  - split; [split; discriminate|].
    intros label H. inversion H; subst.
    split; [exact Hin | exact (Hlabels _ Hin)].
Qed.

End PipelineComposition.

(** ** PlanViewProvider *)

Section ProviderFacts.
Context {num : Type} {JN : JsNumber num}.
Variable host : Host num.
Variable window : Window num.
Variable ai_config : AIServiceConfig.
Variable config : Settings.
Variable env : Env.

Local Abbreviation Provider := (Provider num).

Lemma list_kept_refl (s : Provider) : list_kept s s.
Proof.
  repeat split. exists []. rewrite app_nil_r. split; [reflexivity | constructor].
Qed.

Lemma list_kept_trans (s1 s2 s3 : Provider) :
  list_kept s1 s2 -> list_kept s2 s3 -> list_kept s1 s3.
Proof.
  intros (P1 & V1 & a1 & C1 & F1) (P2 & V2 & a2 & C2 & F2).
  split; [congruence|]. split; [congruence|].
  exists (a1 ++ a2)%list. split.
  - rewrite C2, C1, app_assoc. reflexivity.
  - apply Forall_app. split; [exact F1|]. rewrite <- P1. exact F2.
Qed.

Lemma keeps_ret {A : Type} (a : A) : keeps_list (ret a : M Provider A).
Proof. intros s o s' H. inversion H; subst. apply list_kept_refl. Qed.

Lemma keeps_lift {A : Type} (x : outcome A) : keeps_list (lift x : M Provider A).
Proof. intros s o s' H. inversion H; subst. apply list_kept_refl. Qed.

Lemma keeps_get : keeps_list (get : M Provider Provider).
Proof. intros s o s' H. inversion H; subst. apply list_kept_refl. Qed.

Lemma keeps_bind {A B : Type} (m : M Provider A) (k : A -> M Provider B) :
  keeps_list m -> (forall a, keeps_list (k a)) -> keeps_list (bind m k).
Proof.
  intros Hm Hk s o s'. unfold bind.
  destruct (m s) as [[a|e|] s1] eqn:Hms; intros H.
  - eapply list_kept_trans; [exact (Hm _ _ _ Hms) | exact (Hk _ _ _ _ H)].
  - inversion H; subst. exact (Hm _ _ _ Hms).
  - inversion H; subst. exact (Hm _ _ _ Hms).
Qed.

Lemma keeps_try_catch {A : Type} (m : M Provider A) (h : thrown -> M Provider A) :
  keeps_list m -> (forall e, keeps_list (h e)) -> keeps_list (try_catch m h).
Proof.
  intros Hm Hh s o s'. unfold try_catch.
  destruct (m s) as [[a|e|] s1] eqn:Hms; intros H.
  - inversion H; subst. exact (Hm _ _ _ Hms).
  - eapply list_kept_trans; [exact (Hm _ _ _ Hms) | exact (Hh _ _ _ _ H)].
  - inversion H; subst. exact (Hm _ _ _ Hms).
Qed.

Lemma keeps_set_currentPlan (p : option (Plan num)) :
  keeps_list (modify (PlanViewProvider.set_currentPlan p) : M Provider unit).
Proof.
  intros s o s' H. inversion H; subst. repeat split.
  exists []. simpl. rewrite app_nil_r. split; [reflexivity | constructor].
Qed.

Lemma keeps_ticks {A : Type} (m : M nat A) :
  keeps_list (zoom ticks PlanViewProvider.set_ticks m : M Provider A).
Proof.
  intros s o s'. unfold zoom. destruct (m (ticks s)) as [o' t']. intros H.
  inversion H; subst. repeat split.
  exists []. simpl. rewrite app_nil_r. split; [reflexivity | constructor].
Qed.

Lemma keeps_call (e : Event num) :
  (forall s, stores_only (_recentPlans s) e) -> keeps_list (PlanViewProvider.call e).
Proof.
  intros He s o s'. unfold PlanViewProvider.call, zoom, emit, modify. intros H.
  inversion H; subst. repeat split.
  exists [e]. simpl. split; [reflexivity|]. constructor; [apply He | constructor].
Qed.

Lemma keeps_postMessage (message : ExtensionMessage num) :
  keeps_list (PlanViewProvider.postMessage message).
Proof.
  unfold PlanViewProvider.postMessage. apply keeps_bind; [apply keeps_get|].
  intros s. destruct (_view s); [|apply keeps_ret].
  apply keeps_call. intros s0. exact I.
Qed.

Lemma keeps_saveRecentPlans : keeps_list (PlanViewProvider.saveRecentPlans window).
Proof.
  unfold PlanViewProvider.saveRecentPlans.
  apply keeps_try_catch; [|intros e; apply keeps_ret].
  intros s o s'. unfold bind, get, PlanViewProvider.call, zoom, emit, modify, lift.
  simpl. intros H.
  assert (Hs : s' = PlanViewProvider.set_calls (calls s ++ [Stored (_recentPlans s)])%list s).
  { destruct (globalState_update window (_recentPlans s)); inversion H; reflexivity. }
  subst s'. repeat split.
  exists [Stored (_recentPlans s)]. simpl. split; [reflexivity|].
  constructor; [reflexivity | constructor].
Qed.

Ltac keeps :=
  repeat first
    [ apply keeps_ret | apply keeps_lift | apply keeps_get
    | apply keeps_postMessage | apply keeps_saveRecentPlans
    | apply keeps_set_currentPlan | apply keeps_ticks
    | apply keeps_call; intros ?; exact I
    | apply keeps_bind; [|intros ?]
    | apply keeps_try_catch; [|intros ?] ].

(** Every handler keeps the list. *)
Lemma handleWebviewMessage_keeps (message : WebviewMessage) :
  keeps_list
    (PlanViewProvider.handleWebviewMessage host window ai_config config env message).
Proof.
  destruct message; simpl.
  - unfold PlanViewProvider.handleGeneratePlan.
    destruct (negb _); keeps.
    destruct (PlanViewProvider.is_failed _); keeps.
  - unfold PlanViewProvider.handleSelectPlan. keeps.
    destruct (find _ _); keeps.
  - unfold PlanViewProvider.handleNavigateToFile.
    destruct (negb _); keeps.
  - unfold PlanViewProvider.handleDeletePlan. keeps.
  - keeps.
  - unfold PlanViewProvider.handleCopyPlan. keeps.
    destruct (_currentPlan _); keeps.
  - unfold PlanViewProvider.handleExportPlan. keeps.
    destruct (_currentPlan _); keeps.
    match goal with |- context [match ?u with _ => _ end] => destruct u end; keeps.
  - unfold PlanViewProvider.sendRecentPlans. keeps.
  - unfold PlanViewProvider.sendConfigStatus, PlanViewProvider.sendConfigInfo. keeps.
  - unfold PlanViewProvider.handleOpenSettings. keeps.
Qed.


End ProviderFacts.

Section GenerationFacts.
Context {num : Type} {JN : JsNumber num}.
Variable host : Host num.
Variable window : Window num.
Variable ai_config : AIServiceConfig.
Variable config : Settings.
Variable env : Env.

Local Abbreviation Provider := (Provider num).

Lemma postMessage_run (message : ExtensionMessage num) (s : Provider) :
  _view s = true ->
  PlanViewProvider.postMessage message s =
  (Returns tt, PlanViewProvider.set_calls (calls s ++ [Posted message])%list s).
Proof.
  intros Hview. unfold PlanViewProvider.postMessage, bind, get. rewrite Hview.
  reflexivity.
Qed.

Lemma saveRecentPlans_run (s : Provider) :
  PlanViewProvider.saveRecentPlans window s =
  (match globalState_update window (_recentPlans s) with
   | Diverges => Diverges
   | _ => Returns tt
   end,
   PlanViewProvider.set_calls (calls s ++ [Stored (_recentPlans s)])%list s).
Proof.
  unfold PlanViewProvider.saveRecentPlans, try_catch, bind, get,
    PlanViewProvider.call, zoom, emit, modify, lift, ret. simpl.
  destruct (globalState_update window (_recentPlans s)) as [[]| |]; reflexivity.
Qed.

(** [generatePlan] is its [try] block, a throw of which becomes the
    failed plan. *)
Lemma generatePlan_run (request : string) (options : option PlanOptions) (tick : nat) :
  PlanService.generatePlan host ai_config request options tick =
  match PlanService.generatePlan_try host ai_config request options tick with
  | (Throws e, tick') => (Returns (failed_plan host request tick'), S (S tick'))
  | finished => finished
  end.
Proof.
  unfold PlanService.generatePlan, try_catch.
  destruct (PlanService.generatePlan_try host ai_config request options tick)
    as [[plan|e|] t]; reflexivity.
Qed.

(** A plan [generatePlan] returns is [failed], [draft] or [active]. *)
Lemma generatePlan_status (request : string) (options : option PlanOptions)
    (tick tick' : nat) (plan : Plan num) :
  PlanService.generatePlan host ai_config request options tick = (Returns plan, tick') ->
  status plan = failed \/ status plan = draft \/ status plan = active.
Proof.
  unfold PlanService.generatePlan, try_catch.
  destruct (PlanService.generatePlan_try host ai_config request options tick)
    as [[plan0|e0|] t0] eqn:Htry.
  - intros H. inversion H; subst.
    apply generatePlan_try_returns in Htry. destruct Htry as [response Hp].
    apply parsePlanResponse_returns in Hp. destruct Hp as [st ->]. simpl.
    destruct (Nat.ltb 0 (length st)); tauto.
  - rewrite generatePlan_catch_returns. intros H. inversion H; subst. simpl. tauto.
  - discriminate.
Qed.

(** X12. A generation request, seen from the webview: the handler never
    throws, and when it returns it has posted exactly one of three things:
    the missing-key error, without touching clock or plan; the start
    message and one fixed failure text, the current plan kept; or the
    start message and the completed plan, [draft] or [active], now the current
    plan, the recent plans having been written in between. The text of a
    caught exception is never posted. *)
Theorem handleGeneratePlan_outcomes (request : string) (s s' : Provider)
    (o : outcome unit) :
  _view s = true ->
  PlanViewProvider.handleGeneratePlan host window ai_config config env request s = (o, s') ->
  (forall e, o <> Throws e) /\
  (o = Returns tt ->
   (ConfigService.apiKey config env = "" /\
    _currentPlan s' = _currentPlan s /\ ticks s' = ticks s /\
    calls s' = (calls s ++ [Posted (generation_error key_missing_text)])%list) \/
   (ConfigService.apiKey config env <> "" /\
    _currentPlan s' = _currentPlan s /\
    calls s' = (calls s ++ [Posted generation_start;
                            Posted (generation_error generation_failed_text)])%list) \/
   (ConfigService.apiKey config env <> "" /\
    exists plan,
      (status plan = draft \/ status plan = active) /\
      _currentPlan s' = Some plan /\
      calls s' = (calls s ++ [Posted generation_start;
                              Stored (_recentPlans s);
                              Posted (generation_complete plan)])%list)).
Proof.
  intros Hview. unfold PlanViewProvider.handleGeneratePlan.
  destruct (nonblank (ConfigService.apiKey config env)) eqn:Hkey; cbn [negb]; cbv beta iota.
  - assert (Hne : ConfigService.apiKey config env <> "").
    { intros H. rewrite H in Hkey. discriminate. }
    unfold bind at 1. rewrite (postMessage_run _ _ Hview).
    set (s1 := PlanViewProvider.set_calls (calls s ++ [Posted generation_start])%list s).
    unfold try_catch. unfold bind at 1. unfold zoom.
    change (ticks s1) with (ticks s).
    destruct (PlanService.generatePlan host ai_config request
                (Some {| includeActiveFile := Some true;
                         includeWorkspaceStructure := Some true;
                         includeDependencies := Some true |}) (ticks s))
      as [[plan|e|] t] eqn:Hgen.
    + pose proof (generatePlan_status _ _ _ _ _ Hgen) as Hstatus.
      destruct (PlanViewProvider.is_failed (status plan)) eqn:Hfailed.
      * rewrite postMessage_run by exact Hview.
        intros H. inversion H; subst. split; [discriminate|].
        intros _. right. left. split; [exact Hne|]. split; [reflexivity|].
        simpl. rewrite <- app_assoc. reflexivity.
      * unfold bind at 1. unfold modify at 1. unfold bind at 1.
        rewrite saveRecentPlans_run. simpl _recentPlans.
        destruct (globalState_update window (_recentPlans s)).
        -- rewrite postMessage_run by exact Hview.
           intros H. inversion H; subst. split; [discriminate|].
           intros _. right. right. split; [exact Hne|]. exists plan.
           split; [destruct Hstatus as [Hs|Hs]; [rewrite Hs in Hfailed; discriminate | exact Hs]|].
           split; [reflexivity|]. simpl. rewrite <- !app_assoc. reflexivity.
        -- rewrite postMessage_run by exact Hview.
           intros H. inversion H; subst. split; [discriminate|].
           intros _. right. right. split; [exact Hne|]. exists plan.
           split; [destruct Hstatus as [Hs|Hs]; [rewrite Hs in Hfailed; discriminate | exact Hs]|].
           split; [reflexivity|]. simpl. rewrite <- !app_assoc. reflexivity.
        -- intros H. inversion H; subst. split; discriminate.
    + exfalso. rewrite generatePlan_run in Hgen.
      destruct (PlanService.generatePlan_try _ _ _ _ _) as [[p0|e0|] t0]; discriminate.
    + intros H. inversion H; subst. split; discriminate.
  - apply nonblank_false in Hkey.
    rewrite postMessage_run by exact Hview.
    intros H. inversion H; subst. split; [discriminate|].
    intros _. left. repeat split. exact Hkey.
Qed.

(** X13. When the completion request fails, whatever the error (a
    rejected key, a rate limit, a network failure), the webview is told the
    same fixed text: the classified message is dropped, the current plan is
    kept, and nothing is written to global state. *)
Theorem handleGeneratePlan_failure_text (request : string) (s : Provider) (e : thrown) :
  host_settles host ->
  ConfigService.apiKey config env <> "" ->
  _view s = true ->
  (forall prompt,
     chat_completions_create host ai_config AIService.SYSTEM_PROMPT prompt = Throws e) ->
  PlanViewProvider.handleGeneratePlan host window ai_config config env request s =
  (Returns tt,
   {| _view := _view s; _currentPlan := _currentPlan s; _recentPlans := _recentPlans s;
      calls := (calls s ++ [Posted generation_start;
                            Posted (generation_error generation_failed_text)])%list;
      ticks := S (S (ticks s)) |}).
Proof.
  intros Hsettles Hkey Hview Hfail.
  unfold PlanViewProvider.handleGeneratePlan.
  destruct (nonblank (ConfigService.apiKey config env)) eqn:Hnb;
    [|apply nonblank_false in Hnb; contradiction].
  cbn [negb]. cbv beta iota.
  unfold bind at 1. rewrite (postMessage_run _ _ Hview).
  unfold try_catch. unfold bind at 1. unfold zoom. simpl ticks.
  set (options := Some {| includeActiveFile := Some true;
                          includeWorkspaceStructure := Some true;
                          includeDependencies := Some true |}).
  destruct (gatherContext_run host request options (ticks s) Hsettles) as (ctx & Hctx & _).
  pose proof (generatePlan_try_completion_throws host ai_config request options
                (ticks s) ctx e Hctx (Hfail _)) as Htry.
  rewrite generatePlan_run, Htry. unfold failed_plan.
  cbn [status PlanViewProvider.is_failed]. cbv beta iota.
  rewrite postMessage_run by exact Hview.
  simpl. rewrite <- app_assoc. reflexivity.
Qed.

(** X14. A refresh forgets the generated plan: after a generation
    request, however it ended, a request for the recent plans posts the
    list the provider held before the generation, and the script replaces
    its own list, generated plan included, by it. *)
Theorem refresh_forgets_generated_plan (request : string) (s s1 : Provider)
    (o : outcome unit) :
  _view s = true ->
  PlanViewProvider.handleWebviewMessage host window ai_config config env
    (req_generatePlan request) s = (o, s1) ->
  PlanViewProvider.handleWebviewMessage host window ai_config config env
    req_getRecentPlans s1 =
    (Returns tt,
     PlanViewProvider.set_calls
       (calls s1 ++ [Posted (recent_plans (_recentPlans s))])%list s1) /\
  forall client,
    recentPlans (WebviewScript.handleExtensionMessage
                   (recent_plans (_recentPlans s)) client) = _recentPlans s.
Proof.
  intros Hview Hgen.
  destruct (handleWebviewMessage_keeps host window ai_config config env _ _ _ _ Hgen)
    as (Hplans & Hv & _).
  split; [|reflexivity].
  simpl. unfold PlanViewProvider.sendRecentPlans. unfold bind at 1. unfold get at 1.
  rewrite postMessage_run by congruence. rewrite Hplans. reflexivity.
Qed.

(** X15. Selecting a plan by an identifier the list does not hold does
    nothing at all; selecting one it holds, identifiers being distinct,
    makes that plan the current one and posts it. *)
Theorem handleSelectPlan_by_id (planId : string) (s : Provider) :
  ((forall p, In p (_recentPlans s) -> id p <> planId) ->
   PlanViewProvider.handleSelectPlan planId s = (Returns tt, s)) /\
  (forall p,
     In p (_recentPlans s) -> id p = planId ->
     NoDup (map id (_recentPlans s)) ->
     _view s = true ->
     PlanViewProvider.handleSelectPlan planId s =
       (Returns tt,
        {| _view := _view s; _currentPlan := Some p; _recentPlans := _recentPlans s;
           calls := (calls s ++ [Posted (plan_selected p)])%list; ticks := ticks s |})).
Proof.
  unfold PlanViewProvider.handleSelectPlan. unfold bind at 1 3. unfold get.
  split.
  - intros Hnone.
    destruct (find _ (_recentPlans s)) as [q|] eqn:Hfind; [|reflexivity].
    apply find_some in Hfind. destruct Hfind as [Hin Hid].
    apply String.eqb_eq in Hid. destruct (Hnone q Hin Hid).
  - intros p Hin Hid Hnodup Hview.
    assert (Hfind : find (fun q => String.eqb (id q) planId) (_recentPlans s) = Some p).
    { clear Hview. induction (_recentPlans s) as [|q rest IH]; [destruct Hin|].
      simpl. simpl in Hnodup. inversion Hnodup as [|? ? Hnotin Hrest]; subst.
      destruct (String.eqb_spec (id q) (id p)) as [Heq|Hneq].
      - destruct Hin as [->|Hin]; [reflexivity|].
        exfalso. apply Hnotin. rewrite Heq. apply in_map. exact Hin.
      - destruct Hin as [->|Hin]; [congruence|]. exact (IH Hin Hrest). }
    rewrite Hfind. unfold bind, modify.
    rewrite postMessage_run by exact Hview. reflexivity.
Qed.

End GenerationFacts.

Lemma name_char_of (c : ascii) :
  is_name_char (lower_char (if is_alnum c then c else "_"%char)) = true.
Proof. destruct c as [[] [] [] [] [] [] [] []]; reflexivity. Qed.

(** X16. The file name offered for an exported plan is made of
    lower-case ASCII letters, digits and underscores only, one for each
    character of the task, followed by [.md]. *)
Theorem exportName_safe (request : string) :
  exists stem,
    PlanViewProvider.exportName request = stem ++ ".md" /\
    String.length stem = String.length request /\
    string_forall is_name_char stem = true.
Proof.
  exists (toLowerCase (replace_non_alnum request)).
  split; [reflexivity|].
  unfold toLowerCase, replace_non_alnum.
  induction request as [|c rest [Hlen Hall]]; [split; reflexivity|].
  simpl. rewrite Hlen, Hall, name_char_of. split; reflexivity.
Qed.

(** ** The webview script *)

Section ScriptFacts.
Context {num : Type}.

Local Abbreviation Plan := (Plan num).

Lemma remove_first_fresh (k : string) (plans : list Plan) :
  (forall p, In p plans -> id p <> k) ->
  WebviewScript.remove_first (fun p => String.eqb (id p) k) plans = plans.
Proof.
  induction plans as [|q rest IH]; intros Hfresh; [reflexivity|].
  simpl. destruct (String.eqb_spec (id q) k) as [Heq|Hneq].
  - destruct (Hfresh q (or_introl eq_refl) Heq).
  - rewrite IH; [reflexivity|]. intros p Hp. apply Hfresh. right. exact Hp.
Qed.

Lemma remove_first_filter (k : string) (plans : list Plan) :
  NoDup (map id plans) ->
  WebviewScript.remove_first (fun p => String.eqb (id p) k) plans =
  filter (fun p => negb (String.eqb (id p) k)) plans.
Proof.
  induction plans as [|q rest IH]; intros Hnodup; [reflexivity|].
  simpl in *. inversion Hnodup as [|? ? Hnotin Hrest]; subst.
  destruct (String.eqb_spec (id q) k) as [Heq|Hneq]; simpl.
  - rewrite <- (remove_first_fresh k rest) at 1.
    + apply IH. exact Hrest.
    + intros p Hp Hid. apply Hnotin. rewrite Heq, <- Hid. apply in_map. exact Hp.
  - rewrite IH by exact Hrest. reflexivity.
Qed.

Lemma filter_ids_distinct (test : Plan -> bool) (plans : list Plan) :
  NoDup (map id plans) -> NoDup (map id (filter test plans)).
Proof.
  induction plans as [|q rest IH]; intros Hnodup; [constructor|].
  simpl in *. inversion Hnodup as [|? ? Hnotin Hrest]; subst.
  destruct (test q); simpl; [|exact (IH Hrest)].
  constructor; [|exact (IH Hrest)].
  intros Hin. apply Hnotin. apply in_map_iff in Hin. destruct Hin as (p & Hid & Hp).
  apply filter_In in Hp. rewrite <- Hid. apply in_map. tauto.
Qed.

(** X17. A completed plan goes to the head of the script's recent plans
    and replaces the entry that had its identifier: with distinct
    identifiers before, the list after is the plan followed by the other
    entries in their order, and its identifiers are again distinct. *)
Theorem handleGenerationComplete_replaces_by_id (plan : Plan) (state : ClientState num) :
  NoDup (map id (recentPlans state)) ->
  let state' := WebviewScript.handleGenerationComplete plan state in
  recentPlans state' =
    plan :: filter (fun p => negb (String.eqb (id p) (id plan))) (recentPlans state) /\
  NoDup (map id (recentPlans state')) /\
  currentPlan state' = Some plan /\
  isGenerating state' = false.
Proof.
  intros Hnodup state'. subst state'. simpl.
  rewrite (remove_first_filter _ _ Hnodup).
  split; [reflexivity|]. split; [|split; reflexivity].
  simpl. constructor; [|apply filter_ids_distinct; exact Hnodup].
  intros Hin. apply in_map_iff in Hin. destruct Hin as (p & Hid & Hp).
  apply filter_In in Hp. destruct Hp as [_ Hp].
  rewrite Hid, String.eqb_refl in Hp. discriminate.
Qed.

(** X18. Deleting right after a completion undoes the completion on the
    list when the plan was new; but what [plan-deleted] removes is the head
    of the list, so after another plan was selected it is the head, not the
    plan on display, that goes. *)
Theorem handlePlanDeleted_removes_head (plan : Plan) (state : ClientState num) :
  ((forall p, In p (recentPlans state) -> id p <> id plan) ->
   recentPlans (WebviewScript.handlePlanDeleted
                  (WebviewScript.handleGenerationComplete plan state))
     = recentPlans state) /\
  (forall head rest,
     recentPlans state = head :: rest ->
     In plan rest ->
     let state' :=
       WebviewScript.handlePlanDeleted (WebviewScript.handlePlanSelected plan state) in
     recentPlans state' = rest /\ In plan (recentPlans state') /\
     currentPlan state' = None).
Proof.
  split.
  - intros Hfresh. simpl. apply remove_first_fresh. exact Hfresh.
  - intros head rest Hlist Hin. simpl. rewrite Hlist. simpl. auto.
Qed.

(** X22. After [updateUIState] exactly one of the four main sections
    is shown; the task input is shown together with the no-plan state and
    only then, that is when there is a configuration, no generation is
    running and no plan is on display; and the generate button is disabled
    exactly when there is no configuration or a generation is running. *)
Theorem updateUIState_one_section (state : ClientState num) (panel : Panel) :
  let panel' := WebviewScript.updateUIState state panel in
  shown_sections panel' = 1 /\
  generateButton_disabled panel' = negb (hasConfig state) || isGenerating state /\
  inputSection_hidden panel' = emptyNoPlan_hidden panel' /\
  (inputSection_hidden panel' = false <->
   hasConfig state = true /\ isGenerating state = false /\ currentPlan state = None).
Proof.
  unfold WebviewScript.updateUIState.
  destruct (hasConfig state), (isGenerating state), (currentPlan state); simpl;
    (split; [reflexivity|]); (split; [reflexivity|]); (split; [reflexivity|]);
    (split; [ intros H; first [discriminate H | auto]
            | intros (H1 & H2 & H3); first [discriminate | reflexivity] ]).
Qed.

End ScriptFacts.

(** X21. The generate button sends nothing for a task that is empty or
    all white space; otherwise the task it sends is the input trimmed,
    which is not empty and neither starts nor ends with white space. *)
Theorem handleGenerate_sends_trimmed (value : string) :
  (all_white value = true -> WebviewScript.handleGenerate value = None) /\
  (all_white value = false ->
   WebviewScript.handleGenerate value = Some (req_generatePlan (trim value)) /\
   trim value <> "" /\
   starts_white (trim value) = false /\
   ends_white (trim value) = false).
Proof.
  unfold WebviewScript.handleGenerate. split; intros Hwhite.
  - apply trim_empty in Hwhite. rewrite Hwhite. reflexivity.
  - assert (Hne : trim value <> "").
    { intros H. apply trim_empty in H. congruence. }
    destruct (nonblank (trim value)) eqn:Hnb.
    + pose proof (trim_trimmed value) as [Hs He]. auto.
    + apply nonblank_false in Hnb. contradiction.
Qed.

Lemma string_app_assoc (a b c : string) : (a ++ b) ++ c = a ++ (b ++ c).
Proof. induction a as [|x a IH]; simpl; [reflexivity | rewrite IH; reflexivity]. Qed.

Lemma replace_all_app (c : ascii) (by_text a b : string) :
  WebviewScript.replace_all c by_text (a ++ b) =
  WebviewScript.replace_all c by_text a ++ WebviewScript.replace_all c by_text b.
Proof.
  induction a as [|x a IH]; [reflexivity|].
  simpl. destruct (Ascii.eqb x c); rewrite IH; [|reflexivity].
  rewrite string_app_assoc. reflexivity.
Qed.

Lemma string_forall_app (test : ascii -> bool) (a b : string) :
  string_forall test (a ++ b) = string_forall test a && string_forall test b.
Proof.
  induction a as [|x a IH]; [reflexivity|].
  simpl. rewrite IH, andb_assoc. reflexivity.
Qed.

Lemma escape_char_alone (c : ascii) :
  WebviewScript.escapeHtml (String c EmptyString) = escape_char c /\
  string_forall is_markup_free (escape_char c) = true.
Proof. destruct c as [[] [] [] [] [] [] [] []]; split; reflexivity. Qed.

(** X19. The five replacements of [escapeHtml], made one after the
    other, amount to one pass that replaces each character on its own: an
    ampersand written by an earlier replacement is not escaped again. The
    result holds no angle bracket and no quote of either kind. *)
Theorem escapeHtml_one_pass (unsafe : string) :
  WebviewScript.escapeHtml unsafe = escape_each unsafe /\
  string_forall is_markup_free (WebviewScript.escapeHtml unsafe) = true.
Proof.
  assert (Hsplit : forall c rest,
    WebviewScript.escapeHtml (String c rest) =
    WebviewScript.escapeHtml (String c EmptyString) ++ WebviewScript.escapeHtml rest).
  { intros c rest. unfold WebviewScript.escapeHtml.
    rewrite <- !replace_all_app. reflexivity. }
  induction unsafe as [|c rest [IH1 IH2]]; [split; reflexivity|].
  rewrite Hsplit. destruct (escape_char_alone c) as [Hc Hfree].
  rewrite Hc, string_forall_app, Hfree, IH1. rewrite IH1 in IH2.
  split; [reflexivity | exact IH2].
Qed.

(** X20. [formatDate] on a date: [now] for anything less than a minute
    old, dates in the future included; a count of whole minutes from 1 to 59
    below the hour; a count of whole hours from 1 to 23 below the day; and the
    browser's short date from one day on. *)
Theorem formatDate_ranges (toLocaleDateString : Z -> string) (now date : Z) :
  let diff := (now - date)%Z in
  ((diff < 60000)%Z ->
   WebviewScript.formatDate toLocaleDateString now date = "now") /\
  ((60000 <= diff < 3600000)%Z ->
   exists minutes, 1 <= minutes <= 59 /\
     Z.of_nat minutes = (diff / 60000)%Z /\
     WebviewScript.formatDate toLocaleDateString now date = decimal minutes ++ "m ago") /\
  ((3600000 <= diff < 86400000)%Z ->
   exists hours, 1 <= hours <= 23 /\
     Z.of_nat hours = (diff / 3600000)%Z /\
     WebviewScript.formatDate toLocaleDateString now date = decimal hours ++ "h ago") /\
  ((86400000 <= diff)%Z ->
   WebviewScript.formatDate toLocaleDateString now date = toLocaleDateString date).
Proof.
  intros diff. unfold WebviewScript.formatDate. fold diff.
  repeat split.
  - intros H. apply Z.ltb_lt in H. rewrite H. reflexivity.
  - intros [Hlo Hhi].
    destruct (Z.ltb_spec diff 60000); [lia|].
    destruct (Z.ltb_spec diff 3600000); [|lia].
    assert (1 <= diff / 60000 <= 59)%Z.
    { split; [apply Z.div_le_lower_bound; lia | apply Z.lt_succ_r, Z.div_lt_upper_bound; lia]. }
    exists (Z.to_nat (diff / 60000)). split; [lia|]. split; [lia | reflexivity].
  - intros [Hlo Hhi].
    destruct (Z.ltb_spec diff 60000); [lia|].
    destruct (Z.ltb_spec diff 3600000); [lia|].
    destruct (Z.ltb_spec diff 86400000); [|lia].
    assert (1 <= diff / 3600000 <= 23)%Z.
    { split; [apply Z.div_le_lower_bound; lia | apply Z.lt_succ_r, Z.div_lt_upper_bound; lia]. }
    exists (Z.to_nat (diff / 3600000)). split; [lia|]. split; [lia | reflexivity].
  - intros Hlo.
    destruct (Z.ltb_spec diff 60000); [lia|].
    destruct (Z.ltb_spec diff 3600000); [lia|].
    destruct (Z.ltb_spec diff 86400000); [lia | reflexivity].
Qed.

(** ** Worked examples of the further properties *)

Lemma decimal_inj (a b : nat) : decimal a = decimal b -> a = b.
Proof.
  assert (Hnonnil : forall n, Nat.to_uint n <> Decimal.Nil).
  { intros n. rewrite <- (Unsigned.of_to n) at 1. rewrite Unsigned.to_of.
    apply DecimalFacts.unorm_nonnil. }
  unfold decimal. intros H.
  apply (f_equal NilZero.uint_of_string) in H.
  rewrite !NilZero.usu in H by apply Hnonnil.
  inversion H as [H']. apply Unsigned.to_uint_inj. exact H'.
Qed.

Lemma demo_ids_distinct (a b : nat) : fresh_id demo_host a = fresh_id demo_host b -> a = b.
Proof. simpl. intros H. inversion H as [H']. apply decimal_inj. exact H'. Qed.

Lemma demo_host_settles : host_settles demo_host.
Proof. split; intros p; discriminate. Qed.

(** X1, witness: the padded key of [demo_settings]. *)
Lemma apiKey_setting_wins_witness :
  setting_apiKey demo_settings = Some "  sk-demo " /\
  all_white "  sk-demo " = false /\
  ConfigService.apiKey demo_settings demo_env = "sk-demo".
Proof.
  split; [reflexivity|]. split; [reflexivity|].
  exact (proj1 (apiKey_setting_wins_trimmed demo_settings demo_env "  sk-demo "
                  eq_refl eq_refl)).
Defined.


(** X7, witness. *)
Lemma parsePlanResponse_orders_witness :
  exists plan tick',
    PlanService.parsePlanResponse demo_host "t" mixed_steps 0 = (Returns plan, tick') /\
    map order (steps plan) = [1; 3] /\
    StronglySorted lt (map order (steps plan)).
Proof.
  eexists. eexists. split; [reflexivity|]. split; [reflexivity|].
  apply (parsePlanResponse_orders_increase demo_host "t" mixed_steps 0 4). reflexivity.
Defined.

(** X8, witness. *)
Lemma parsePlanResponse_ids_witness :
  (forall a b, fresh_id demo_host a = fresh_id demo_host b -> a = b) /\
  exists plan tick',
    PlanService.parsePlanResponse demo_host "t" three_empty_steps 0 = (Returns plan, tick') /\
    NoDup (id plan :: map step_id (steps plan)).
Proof.
  split; [exact demo_ids_distinct|].
  eexists. eexists. split; [exact normalize_three_empty_steps|].
  apply (parsePlanResponse_ids_distinct demo_host "t" three_empty_steps 0 5 _
           demo_ids_distinct normalize_three_empty_steps).
Defined.

(** X9, witness: a reply in prose. *)
Lemma generatePlan_unparsed_reply_witness :
  let host := demo_host_with None (reply_with (Some "Sure, here is a plan")) None in
  host_settles host /\
  JSON_parse host "Sure, here is a plan" = None /\
  PlanService.generatePlan host demo_config "add a login page" all_options 0 =
    (Returns {| id := "id0"; task := "add a login page"; steps := [];
                createdAt := 1%Z; status := draft |}, 2).
Proof.
  assert (Hsettles : host_settles
            (demo_host_with None (reply_with (Some "Sure, here is a plan")) None)).
  { split; intros p; discriminate. }
  split; [exact Hsettles|]. split; [reflexivity|].
  apply (generatePlan_unparsed_reply_is_draft
           (demo_host_with None (reply_with (Some "Sure, here is a plan")) None)
           demo_config "add a login page" all_options 0
           (reply_with (Some "Sure, here is a plan")) "Sure, here is a plan" Hsettles);
    [intros prompt; reflexivity | reflexivity | discriminate | reflexivity].
Defined.

(** X10, witness: the manifest with react and vue. *)
Lemma gatherContext_stack_witness :
  let host := demo_host_with (Some react_and_vue) (reply_with None) None in
  host_settles host /\
  exists ctx,
    PlanService.gatherContext host "t" all_options tt = (Returns ctx, tt) /\
    techStack ctx = Some "React" /\
    (dependencies ctx = None <-> techStack ctx = None).
Proof.
  assert (Hsettles : host_settles (demo_host_with (Some react_and_vue) (reply_with None) None)).
  { split; intros p; discriminate. }
  split; [exact Hsettles|].
  eexists. split; [reflexivity|]. split; [reflexivity|].
  apply (gatherContext_stack_with_dependencies
           (demo_host_with (Some react_and_vue) (reply_with None) None)
           "t" all_options tt tt _ Hsettles eq_refl).
Defined.


(** The rate-limited endpoint of [demo_host], seen from the webview. *)
Example handleGeneratePlan_rate_limited_run :
  PlanViewProvider.handleGeneratePlan demo_host demo_window demo_config
    demo_settings demo_env "add a login page" demo_provider =
  (Returns tt,
   {| _view := true; _currentPlan := None;
      _recentPlans := _recentPlans demo_provider;
      calls := [Posted generation_start;
                Posted (generation_error generation_failed_text)];
      ticks := 2 |}).
Proof. reflexivity. Qed.

(** X13, witness: the rate-limited endpoint again, seen from the webview. *)
Lemma handleGeneratePlan_failure_witness :
  host_settles demo_host /\
  ConfigService.apiKey demo_settings demo_env <> "" /\
  PlanViewProvider.handleGeneratePlan demo_host demo_window demo_config
    demo_settings demo_env "add a login page" demo_provider =
  (Returns tt,
   {| _view := true; _currentPlan := None;
      _recentPlans := _recentPlans demo_provider;
      calls := [Posted generation_start;
                Posted (generation_error generation_failed_text)];
      ticks := 2 |}).
Proof.
  split; [exact demo_host_settles|]. split; [discriminate|].
  apply (handleGeneratePlan_failure_text demo_host demo_window demo_config
           demo_settings demo_env "add a login page" demo_provider
           (APIError (Some 429) "Too Many Requests" None) demo_host_settles);
    [discriminate | reflexivity | intros prompt; reflexivity].
Defined.

(** X12, witness: the same request, through the general statement. *)
Lemma handleGeneratePlan_outcomes_witness :
  _view demo_provider = true /\
  exists o s',
    PlanViewProvider.handleGeneratePlan demo_host demo_window demo_config
      demo_settings demo_env "add a login page" demo_provider = (o, s') /\
    forall e, o <> Throws e.
Proof.
  split; [reflexivity|].
  eexists. eexists. split; [exact handleGeneratePlan_rate_limited_run|].
  apply (proj1 (handleGeneratePlan_outcomes demo_host demo_window demo_config
                  demo_settings demo_env "add a login page" demo_provider _ _ eq_refl
                  handleGeneratePlan_rate_limited_run)).
Defined.

(** X14, witness. *)
Lemma refresh_forgets_witness :
  _view demo_provider = true /\
  exists o s1,
    PlanViewProvider.handleWebviewMessage demo_host demo_window demo_config
      demo_settings demo_env (req_generatePlan "add a login page") demo_provider
      = (o, s1) /\
    PlanViewProvider.handleWebviewMessage demo_host demo_window demo_config
      demo_settings demo_env req_getRecentPlans s1 =
      (Returns tt,
       PlanViewProvider.set_calls
         (calls s1 ++ [Posted (recent_plans (_recentPlans demo_provider))])%list s1).
Proof.
  split; [reflexivity|].
  eexists. eexists. split; [exact handleGeneratePlan_rate_limited_run|].
  apply (proj1 (refresh_forgets_generated_plan demo_host demo_window demo_config
                  demo_settings demo_env "add a login page" demo_provider _ _ eq_refl
                  handleGeneratePlan_rate_limited_run)).
Defined.

(** X17, witness: the plan [p2] generated again. *)
Lemma handleGenerationComplete_witness :
  NoDup (map id (recentPlans demo_client)) /\
  recentPlans (WebviewScript.handleGenerationComplete
                 (stored_plan "p2" "fix the tests again") demo_client) =
    [stored_plan "p2" "fix the tests again"; stored_plan "p1" "add a login page"].
Proof.
  assert (Hnodup : NoDup (map id (recentPlans demo_client))).
  { simpl. repeat constructor; simpl; intuition discriminate. }
  split; [exact Hnodup|].
  exact (proj1 (handleGenerationComplete_replaces_by_id
                  (stored_plan "p2" "fix the tests again") demo_client Hnodup)).
Defined.

(** The key question, the export name and the escaping on examples. *)
Example apiKey_blank_setting_falls_back :
  ConfigService.apiKey
    {| setting_apiKey := Some "   "; setting_endpoint := None;
       setting_model := None; setting_maxTokens := None |} demo_env = "sk-from-env".
Proof. reflexivity. Qed.

Example exportName_example :
  PlanViewProvider.exportName "Add OAuth2 login!" = "add_oauth2_login_.md".
Proof. reflexivity. Qed.

Example escapeHtml_example :
  WebviewScript.escapeHtml "a<b & 'c'" = "a&lt;b &amp; &#039;c&#039;".
Proof. reflexivity. Qed.
